(** * papirladen-v2: the product form, the add-to-cart button and the
      fly-to-cart effect of [assets/product-form.js]

    The three custom elements of [assets/product-form.js] are embedded as
    functions over an explicit browser state: the component's refs, the table
    of pending timers, the requests in flight, the events dispatched and the
    console.  Handlers that can throw run in a small state-and-exception
    monad.  The geometry of the fly-to-cart effect is stated over the
    rationals. *)

From stdpp Require Import base option list strings gmap.
From Stdlib Require Import ZArith QArith Lia Lqa DecimalString Ascii String.

Local Open Scope Z_scope.

(** ** JavaScript values used by the file *)

Module JS.

(** Numbers.  Quantities, identifiers and timer delays are integers, so the
    model keeps the integer-valued numbers and [NaN]. *)
Inductive number := NaN | Num (z : Z).

(** Truthiness of a number: [0] and [NaN] are falsy. *)
Definition truthy (n : number) : bool :=
  match n with
  | NaN => false
  | Num z => negb (z =? 0)
  end.

(** [a || b] on numbers. *)
Definition or_else (a b : number) : number := if truthy a then a else b.

(** [Number.prototype.toString] on an integer: its decimal numeral. *)
Definition toString (z : Z) : string := NilZero.string_of_int (Z.to_int z).

Definition is_white (c : ascii) : bool :=
  let n := nat_of_ascii c in
  ((n =? 32) || (n =? 9) || (n =? 10) || (n =? 11) || (n =? 12) || (n =? 13))%nat.

Definition digit_of (c : ascii) : option Z :=
  let n := nat_of_ascii c in
  if ((48 <=? n) && (n <=? 57))%nat then Some (Z.of_nat (n - 48)) else None.

Fixpoint skip_white (s : string) : string :=
  match s with
  | String c s' => if is_white c then skip_white s' else s
  | EmptyString => EmptyString
  end.

(** The longest prefix of decimal digits, as a number, and what follows. *)
Fixpoint digits (acc : Z) (s : string) : Z * string :=
  match s with
  | String c s' =>
      match digit_of c with
      | Some d => digits (10 * acc + d) s'
      | None => (acc, s)
      end
  | EmptyString => (acc, EmptyString)
  end.

Definition unsigned_literal (s : string) : number :=
  match s with
  | String c _ =>
      match digit_of c with
      | Some _ =>
          let '(n, rest) := digits 0 s in
          match skip_white rest with
          | EmptyString => Num n
          | _ => NaN
          end
      | None => NaN
      end
  | EmptyString => NaN
  end.

(** [Number(s)] on a string: white space is trimmed, the empty string is
    [0], a signed decimal integer is its value, anything else is [NaN]
    (fractions, exponents, radix prefixes and [Infinity] are outside the
    integer model). *)
Definition Number_of_string (s : string) : number :=
  match skip_white s with
  | EmptyString => Num 0
  | String "+"%char t => unsigned_literal t
  | String "-"%char t =>
      match unsigned_literal t with
      | Num z => Num (- z)
      | NaN => NaN
      end
  | t => unsigned_literal t
  end.

(** [Number(v)] where [v] is a string or [null], as [FormData.get]
    returns: [Number(null)] is [0]. *)
Definition Number_nullable (v : option string) : number :=
  match v with
  | Some s => Number_of_string s
  | None => Num 0
  end.

(** [Number(v)] where [v] is a string or [undefined], as a [dataset]
    property is: [Number(undefined)] is [NaN]. *)
Definition Number_optional (v : option string) : number :=
  match v with
  | Some s => Number_of_string s
  | None => NaN
  end.

(** [s.replace(pattern, replacement)] with a string pattern: the first
    occurrence only is replaced.  The replacement strings of this file are
    decimal numerals, which hold none of the [$] patterns. *)
Fixpoint replace (pattern replacement s : string) : string :=
  if String.prefix pattern s
  then (replacement +:+ String.substring (String.length pattern)
                          (String.length s - String.length pattern) s)%string
  else match s with
       | String c s' => String c (replace pattern replacement s')
       | EmptyString => EmptyString
       end.

(** [parts.join(',')]. *)
Fixpoint join (sep : string) (parts : list string) : string :=
  match parts with
  | [] => EmptyString
  | [p] => p
  | p :: rest => (p +:+ sep +:+ join sep rest)%string
  end.

(** Values a parsed JSON field can hold, with their truthiness. *)
Inductive value :=
| Undefined
| Null
| Bool (b : bool)
| Number (n : number)
| Str (s : string).

Definition truthy_value (v : value) : bool :=
  match v with
  | Undefined | Null => false
  | Bool b => b
  | Number n => truthy n
  | Str s => negb (String.eqb s EmptyString)
  end.

End JS.

(** ** The fly-to-cart geometry *)

(** Coordinates and times are rationals: the arithmetic of this module is
    exact, where the code rounds every operation to a double. *)

Module Bezier.

Local Open Scope Q_scope.

Record point := Point { x : Q; y : Q }.

(** A [DOMRect], as [getBoundingClientRect] returns it. *)
Record rect := Rect { left : Q; top : Q; width : Q; height : Q }.

(** [bezierPoint(t, p0, p1, p2, p3)], lines 650-663; [Math.pow(t, n)] is
    the exact power. *)
Definition bezierPoint (t : Q) (p0 p1 p2 p3 : point) : point :=
  let cX := 3 * (x p1 - x p0) in
  let bX := 3 * (x p2 - x p1) - cX in
  let aX := x p3 - x p0 - cX - bX in
  let cY := 3 * (y p1 - y p0) in
  let bY := 3 * (y p2 - y p1) - cY in
  let aY := y p3 - y p0 - cY - bY in
  {| x := aX * t ^ 3 + bX * t ^ 2 + cX * t + x p0;
     y := aY * t ^ 3 + bY * t ^ 2 + cY * t + y p0 |}.

(** The cubic Bernstein form of the same curve. *)
Definition bernstein (t a b c d : Q) : Q :=
  (1 - t) ^ 3 * a + 3 * (1 - t) ^ 2 * t * b + 3 * (1 - t) * t ^ 2 * c + t ^ 3 * d.

(** What [FlyToCart.#animate] fixes before the first frame, lines 571-598. *)
Record path := Path {
  startPoint : point;
  controlPoint1 : point;
  controlPoint2 : point;
  endPoint : point;
  duration : Q
}.

Definition animate_path (own source destination : rect) : path :=
  let offset := {| x := width own / 2; y := height own / 2 |} in
  let startPoint :=
    {| x := left source + width source / 2 - x offset;
       y := top source + height source / 2 - y offset |} in
  let endPoint :=
    {| x := left destination + width destination / 2 - x offset;
       y := top destination + height destination / 2 - y offset |} in
  let controlPoint1 := {| x := x startPoint; y := y startPoint - 200 |} in
  let controlPoint2 := {| x := x endPoint - 300; y := y endPoint - 100 |} in
  {| startPoint := startPoint;
     controlPoint1 := controlPoint1;
     controlPoint2 := controlPoint2;
     endPoint := endPoint;
     duration := 600 |}.

(** The style of the flying element and the closure variable
    [startTime] ([None] is [null]). *)
Record flight := Flight {
  startTime : option Q;
  position : point;
  scale : Q;
  opacity : Q;
  frame_requested : bool
}.

(** [!startTime]: [null] and [0] are falsy. *)
Definition startTime_unset (s : option Q) : bool :=
  match s with
  | None => true
  | Some q => Qeq_bool q 0
  end.

Definition Qmin (a b : Q) : Q := if Qle_bool a b then a else b.

(** The state in which [#animate] leaves the element, lines 600 and
    633-637. *)
Definition animate_start (p : path) : flight :=
  {| startTime := None;
     position := startPoint p;
     scale := 1;
     opacity := 1;
     frame_requested := true |}.

(** One call of the per-frame callback [animate(currentTime)], lines
    606-630. *)
Definition animate_frame (p : path) (currentTime : Q) (f : flight) : flight :=
  let start := if startTime_unset (startTime f) then currentTime
               else default 0 (startTime f) in
  let elapsed := currentTime - start in
  let progress := Qmin (elapsed / duration p) 1 in
  let position :=
    bezierPoint progress (startPoint p) (controlPoint1 p) (controlPoint2 p) (endPoint p) in
  let scale := 1 - progress * (1 # 2) in
  if Qle_bool 1 progress
  then {| startTime := Some start; position := position; scale := scale;
          opacity := 0; frame_requested := false |}
  else {| startTime := Some start; position := position; scale := scale;
          opacity := opacity f; frame_requested := true |}.

(** The centre of a rectangle. *)
Definition centre (r : rect) : point :=
  {| x := left r + width r / 2; y := top r + height r / 2 |}.

End Bezier.

(** ** The browser state *)

(** The callbacks this file hands to [setTimeout]. *)
Inductive callback :=
| HideError        (** lines 270-274 and 327-333 *)
| EnableButton     (** lines 277-279 *)
| ClearLiveRegion  (** lines 365-367 *)
| AnimationEnd     (** lines 130-134, the outer callback *)
| Cleanup.         (** lines 131-133, the inner callback *)

#[global] Instance callback_eq_dec : EqDecision callback.
Proof. solve_decision. Defined.

(** A pending timer.  [setTimeout] returns an integer greater than zero, so
    an identifier is always truthy. *)
Record timer := Timer {
  timer_id : positive;
  due : Z;
  timer_callback : callback
}.

(** What [quantitySelector.canAddToCart()] returns. *)
Record validation := Validation {
  canAdd : bool;
  maxQuantity : Z
}.

(** The quantity widget, an external element probed for its methods:
    [canAddToCart] is [None] when the method is missing and otherwise holds
    what a call returns; [setCartQuantity] tells whether that method exists. *)
Record quantity_selector := QuantitySelector {
  canAddToCart : option validation;
  setCartQuantity : bool;
  cartQuantity : Z
}.

(** An [AddToCartComponent] with its required ref [addToCartButton]. *)
Record add_to_cart := AddToCart {
  disabled : bool;                     (** [addToCartButton.disabled] *)
  atc_added : bool;                    (** class ['atc-added'] on the button *)
  markup : string;                     (** text and icon of the button *)
  addedText : option string;           (** trimmed text of [.add-to-cart-text--added] *)
  atc_dataset : gmap string string;    (** [this.dataset] *)
  animationTimeout : option positive;  (** [#animationTimeout] *)
  cleanupTimeout : option positive     (** [#cleanupTimeout] *)
}.

(** The element [addToCartTextError]: its class ['hidden'], its attribute
    [aria-live] and the text of each of its child nodes. *)
Record error_element := ErrorElement {
  hidden : bool;
  aria_live : bool;
  childNodes : list string
}.

(** The [form] element inside the component. *)
Record form_element := FormElement {
  form_id : option string;   (** [form.getAttribute('id')] *)
  checkValidity : bool       (** what [form.checkValidity()] returns *)
}.

(** A [ProductFormComponent].  [controls] lists the named inputs of the
    form with their values, in document order: the required ref [variantId]
    is the input named [id] ("the form input for submitting the variant
    ID"), which is also what [querySelector('input[name="id"]')] finds and
    what [new FormData(form)] serialises. *)
Record product_form := ProductForm {
  id : string;
  dataset : gmap string string;
  timeout : option positive;                            (** [#timeout] *)
  addToCartButtonContainer : option add_to_cart;
  addToCartTextError : option error_element;
  acceleratedCheckoutButtonContainer : option bool;     (** its attribute [hidden] *)
  liveRegion : string;                                  (** its [textContent] *)
  quantityLabelCartCount : option bool;                 (** its class ['hidden'] *)
  form : option form_element;
  controls : list (string * string);
  quantitySelector : option quantity_selector
}.

(** Detail of a [CartAddEvent]; [didError] is [false] when the field is
    absent. *)
Record add_detail := AddDetail {
  didError : bool;
  source : string;
  itemCount : JS.number;
  productId : option string;
  sections : option (list (string * string))
}.

Inductive theme_event :=
| CartErrorEvent (sourceId message description errors : string)
| CartAddEvent (sourceId : string) (detail : add_detail).

(** The JSON a cart-add POST answers with. *)
Record add_response := AddResponse {
  status : JS.value;
  message : string;
  response_description : string;
  response_errors : string;
  response_sections : option (list (string * string))
}.

(** The JSON of [/cart.js]: [items] and a field of an item are [None] when
    the JSON lacks them. *)
Record cart_item := CartItem {
  variant_id : option Z;
  quantity : Z
}.

Record cart := Cart { items : option (list cart_item) }.

(** How a [fetch(...)] followed by [response.json()] settles. *)
Inductive fetched (A : Type) :=
| NetworkError
| ParseError
| Json (body : A).
Arguments NetworkError {A}.
Arguments ParseError {A}.
Arguments Json {A} body.

(** A request in flight, with what the continuation of its promise
    captured: the [FormData] and the [id] attribute of the form for the POST
    of [handleSubmit], nothing for the GET of [/cart.js]. *)
Inductive request :=
| CartAdd (formData : list (string * string)) (formId : option string)
| CartGet.

Record world := World {
  now : Z;                                  (** milliseconds *)
  next_timer : positive;
  timers : list timer;                      (** pending, in scheduling order *)
  next_request : nat;
  inflight : gmap nat request;
  dispatched : list theme_event;            (** [dispatchEvent], oldest first *)
  console : list string;                    (** [console.error], oldest first *)
  flights : list string;                    (** images of the [fly-to-cart] elements appended to the body *)
  cartIcon : bool;                          (** [.header-actions__cart-icon] exists *)
  cartItemsComponents : list (option string);  (** [dataset.sectionId] of each [cart-items-component] *)
  translations_added : string;              (** [Theme.translations.added] *)
  pf : product_form
}.

(** *** Field updates *)

Definition set_disabled (b : bool) (c : add_to_cart) : add_to_cart :=
  AddToCart b (atc_added c) (markup c) (addedText c) (atc_dataset c)
            (animationTimeout c) (cleanupTimeout c).
Definition set_atc_added (b : bool) (c : add_to_cart) : add_to_cart :=
  AddToCart (disabled c) b (markup c) (addedText c) (atc_dataset c)
            (animationTimeout c) (cleanupTimeout c).
Definition set_markup (m : string) (c : add_to_cart) : add_to_cart :=
  AddToCart (disabled c) (atc_added c) m (addedText c) (atc_dataset c)
            (animationTimeout c) (cleanupTimeout c).
Definition set_atc_dataset (d : gmap string string) (c : add_to_cart) : add_to_cart :=
  AddToCart (disabled c) (atc_added c) (markup c) (addedText c) d
            (animationTimeout c) (cleanupTimeout c).
Definition set_animationTimeout (i : option positive) (c : add_to_cart) : add_to_cart :=
  AddToCart (disabled c) (atc_added c) (markup c) (addedText c) (atc_dataset c)
            i (cleanupTimeout c).
Definition set_cleanupTimeout (i : option positive) (c : add_to_cart) : add_to_cart :=
  AddToCart (disabled c) (atc_added c) (markup c) (addedText c) (atc_dataset c)
            (animationTimeout c) i.

Definition set_dataset (d : gmap string string) (p : product_form) : product_form :=
  ProductForm (id p) d (timeout p) (addToCartButtonContainer p) (addToCartTextError p)
              (acceleratedCheckoutButtonContainer p) (liveRegion p)
              (quantityLabelCartCount p) (form p) (controls p) (quantitySelector p).
Definition set_timeout (i : option positive) (p : product_form) : product_form :=
  ProductForm (id p) (dataset p) i (addToCartButtonContainer p) (addToCartTextError p)
              (acceleratedCheckoutButtonContainer p) (liveRegion p)
              (quantityLabelCartCount p) (form p) (controls p) (quantitySelector p).
Definition set_container (c : option add_to_cart) (p : product_form) : product_form :=
  ProductForm (id p) (dataset p) (timeout p) c (addToCartTextError p)
              (acceleratedCheckoutButtonContainer p) (liveRegion p)
              (quantityLabelCartCount p) (form p) (controls p) (quantitySelector p).
Definition set_error (e : option error_element) (p : product_form) : product_form :=
  ProductForm (id p) (dataset p) (timeout p) (addToCartButtonContainer p) e
              (acceleratedCheckoutButtonContainer p) (liveRegion p)
              (quantityLabelCartCount p) (form p) (controls p) (quantitySelector p).
Definition set_accelerated (a : option bool) (p : product_form) : product_form :=
  ProductForm (id p) (dataset p) (timeout p) (addToCartButtonContainer p)
              (addToCartTextError p) a (liveRegion p)
              (quantityLabelCartCount p) (form p) (controls p) (quantitySelector p).
Definition set_liveRegion (t : string) (p : product_form) : product_form :=
  ProductForm (id p) (dataset p) (timeout p) (addToCartButtonContainer p)
              (addToCartTextError p) (acceleratedCheckoutButtonContainer p) t
              (quantityLabelCartCount p) (form p) (controls p) (quantitySelector p).
Definition set_label (l : option bool) (p : product_form) : product_form :=
  ProductForm (id p) (dataset p) (timeout p) (addToCartButtonContainer p)
              (addToCartTextError p) (acceleratedCheckoutButtonContainer p) (liveRegion p)
              l (form p) (controls p) (quantitySelector p).
Definition set_controls (c : list (string * string)) (p : product_form) : product_form :=
  ProductForm (id p) (dataset p) (timeout p) (addToCartButtonContainer p)
              (addToCartTextError p) (acceleratedCheckoutButtonContainer p) (liveRegion p)
              (quantityLabelCartCount p) (form p) c (quantitySelector p).
Definition set_quantitySelector (q : option quantity_selector) (p : product_form) : product_form :=
  ProductForm (id p) (dataset p) (timeout p) (addToCartButtonContainer p)
              (addToCartTextError p) (acceleratedCheckoutButtonContainer p) (liveRegion p)
              (quantityLabelCartCount p) (form p) (controls p) q.

Definition set_now (t : Z) (w : world) : world :=
  World t (next_timer w) (timers w) (next_request w) (inflight w) (dispatched w)
        (console w) (flights w) (cartIcon w) (cartItemsComponents w)
        (translations_added w) (pf w).
Definition set_timers (n : positive) (ts : list timer) (w : world) : world :=
  World (now w) n ts (next_request w) (inflight w) (dispatched w)
        (console w) (flights w) (cartIcon w) (cartItemsComponents w)
        (translations_added w) (pf w).
Definition set_inflight (n : nat) (m : gmap nat request) (w : world) : world :=
  World (now w) (next_timer w) (timers w) n m (dispatched w)
        (console w) (flights w) (cartIcon w) (cartItemsComponents w)
        (translations_added w) (pf w).
Definition set_dispatched (es : list theme_event) (w : world) : world :=
  World (now w) (next_timer w) (timers w) (next_request w) (inflight w) es
        (console w) (flights w) (cartIcon w) (cartItemsComponents w)
        (translations_added w) (pf w).
Definition set_console (c : list string) (w : world) : world :=
  World (now w) (next_timer w) (timers w) (next_request w) (inflight w) (dispatched w)
        c (flights w) (cartIcon w) (cartItemsComponents w)
        (translations_added w) (pf w).
Definition set_flights (f : list string) (w : world) : world :=
  World (now w) (next_timer w) (timers w) (next_request w) (inflight w) (dispatched w)
        (console w) f (cartIcon w) (cartItemsComponents w)
        (translations_added w) (pf w).
Definition set_pf (p : product_form) (w : world) : world :=
  World (now w) (next_timer w) (timers w) (next_request w) (inflight w) (dispatched w)
        (console w) (flights w) (cartIcon w) (cartItemsComponents w)
        (translations_added w) p.

(** *** Handlers: state and exceptions *)

Inductive completion (A : Type) :=
| Normal (result : A)
| Throw (error : string).
Arguments Normal {A} result.
Arguments Throw {A} error.

Definition M (A : Type) : Type := world -> completion A * world.

Definition ret {A} (a : A) : M A := fun w => (Normal a, w).

Definition bind {A B} (m : M A) (k : A -> M B) : M B :=
  fun w =>
    match m w with
    | (Normal a, w') => k a w'
    | (Throw e, w') => (Throw e, w')
    end.

Definition throw {A} (e : string) : M A := fun w => (Throw e, w).

(** [try { body } catch (error) { handler }]. *)
Definition try_catch {A} (body : M A) (handler : string -> M A) : M A :=
  fun w =>
    match body w with
    | (Normal a, w') => (Normal a, w')
    | (Throw e, w') => handler e w'
    end.

Definition get : M world := fun w => (Normal w, w).
Definition modify (f : world -> world) : M unit := fun w => (Normal tt, f w).
Definition modify_pf (f : product_form -> product_form) : M unit :=
  modify (fun w => set_pf (f (pf w)) w).

Declare Scope handler_scope.
Delimit Scope handler_scope with handler.
Notation "'let*' x ':=' m 'in' k" := (bind m (fun x => k))
  (at level 10, x name, m at level 100, k at level 200) : handler_scope.
Notation "m ';;' k" := (bind m (fun _ => k))
  (at level 100, k at level 200, right associativity) : handler_scope.
Local Open Scope handler_scope.

(** The state in which a handler leaves the world, whether it returned
    or threw. *)
Definition exec {A} (m : M A) (w : world) : world := snd (m w).

(** *** Timers, requests, events *)

Definition ADD_TO_CART_TEXT_ANIMATION_DURATION : Z := 2000.
Definition ERROR_MESSAGE_DISPLAY_DURATION : Z := 10000.
Definition ERROR_BUTTON_REENABLE_DELAY : Z := 1000.
Definition SUCCESS_MESSAGE_DISPLAY_DURATION : Z := 5000.

(** [setTimeout(callback, delay)]. *)
Definition setTimeout (cb : callback) (delay : Z) : M positive :=
  fun w =>
    let i := next_timer w in
    (Normal i, set_timers (Pos.succ i) (timers w ++ [Timer i (now w + delay) cb]) w).

Definition remove_timer (i : positive) (ts : list timer) : list timer :=
  filter (fun t => timer_id t <> i) ts.

(** [clearTimeout(id)]; clearing a timer that has fired does nothing. *)
Definition clearTimeout (i : positive) : M unit :=
  modify (fun w => set_timers (next_timer w) (remove_timer i (timers w)) w).

(** [if (id) clearTimeout(id)]. *)
Definition clear_if_set (i : option positive) : M unit :=
  match i with
  | Some i => clearTimeout i
  | None => ret tt
  end.

(** [fetch(...)]: the request is in flight under a fresh number. *)
Definition fetch (r : request) : M unit :=
  modify (fun w => set_inflight (S (next_request w))
                                (<[next_request w := r]> (inflight w)) w).

Definition dispatchEvent (e : theme_event) : M unit :=
  modify (fun w => set_dispatched (dispatched w ++ [e]) w).

Definition console_error (e : string) : M unit :=
  modify (fun w => set_console (console w ++ [e]) w).

(** ** AddToCartComponent *)

(** [method] on the container when the ref is there: the model of
    [addToCartButtonContainer?.method()]. *)
Definition on_container (f : add_to_cart -> add_to_cart) : M unit :=
  modify_pf (fun p => set_container (f <$> addToCartButtonContainer p) p).

(** [disable()], lines 51-53, and [enable()], lines 58-60. *)
Definition disable : add_to_cart -> add_to_cart := set_disabled true.
Definition enable : add_to_cart -> add_to_cart := set_disabled false.

(** [animateAddToCart()], lines 120-135. *)
Definition animateAddToCart : M unit :=
  let* w := get in
  match addToCartButtonContainer (pf w) with
  | None => ret tt
  | Some c =>
      clear_if_set (animationTimeout c);;
      clear_if_set (cleanupTimeout c);;
      on_container (set_atc_added true);;
      let* i := setTimeout AnimationEnd ADD_TO_CART_TEXT_ANIMATION_DURATION in
      on_container (set_animationTimeout (Some i))
  end.

(** A truthy string: defined and not empty. *)
Definition truthy_string (s : option string) : option string :=
  match s with
  | Some EmptyString | None => None
  | Some s => Some s
  end.

(** [#animateFlyToCart()], lines 100-115: the new element is appended to
    the body, where its [connectedCallback] starts the flight. *)
Definition animateFlyToCart : M unit :=
  let* w := get in
  match addToCartButtonContainer (pf w) with
  | None => ret tt
  | Some c =>
      match cartIcon w, truthy_string (atc_dataset c !! "productVariantMedia") with
      | true, Some image => modify (fun w => set_flights (flights w ++ [image]) w)
      | _, _ => ret tt
      end
  end.

(** What [canAddToCart()] says when the widget and the method are there:
    the model of [if (quantitySelector?.canAddToCart) { validation = ... }]. *)
Definition validate (p : product_form) : option validation :=
  q ← quantitySelector p; canAddToCart q.

(** [handleClick(event)], lines 66-87; [in_quick_add_modal] is whether
    [event.target.closest('.quick-add-modal')] finds an element. *)
Definition handleClick (in_quick_add_modal : bool) : M unit :=
  let* w := get in
  match form (pf w) with
  | None => ret tt
  | Some f =>
      if negb (checkValidity f) then ret tt
      else
        match validate (pf w) with
        | Some (Validation false _) => ret tt
        | _ =>
            animateAddToCart;;
            let* w := get in
            let animationEnabled :=
              match addToCartButtonContainer (pf w) with
              | Some c => bool_decide (atc_dataset c !! "addToCartAnimation" = Some "true")
              | None => false
              end in
            if animationEnabled && negb in_quick_add_modal
            then animateFlyToCart
            else ret tt
        end
  end.

(** The AddToCart timer callbacks, lines 130-134. *)
Definition animationEnd : M unit :=
  let* i := setTimeout Cleanup 10 in
  on_container (set_cleanupTimeout (Some i)).

Definition cleanup : M unit := on_container (set_atc_added false).

(** ** ProductFormComponent *)

(** [#setLiveRegionText(text)] and [#clearLiveRegionText()], lines 411-419. *)
Definition setLiveRegionText (text : string) : M unit :=
  modify_pf (set_liveRegion text).
Definition clearLiveRegionText : M unit := modify_pf (set_liveRegion EmptyString).

(** Lines 257-265 and 313-322: the class ['hidden'] is removed and the
    message goes to the third child node, or to a new text node at the end
    when there is no third child. *)
Definition show_error (text : string) (e : error_element) : error_element :=
  ErrorElement false (aria_live e)
    (match childNodes e !! 2%nat with
     | Some _ => <[2%nat := text]> (childNodes e)
     | None => childNodes e ++ [text]
     end).

(** The callback of the error timer, lines 270-274 and 327-333. *)
Definition hideError : M unit :=
  let* w := get in
  match addToCartTextError (pf w) with
  | None => ret tt
  | Some e =>
      modify_pf (set_error (Some (ErrorElement true (aria_live e) (childNodes e))));;
      clearLiveRegionText
  end.

(** The first value under a name: [formData.get(name)] and the value of
    the first input with that name. *)
Fixpoint first_value (name : string) (entries : list (string * string)) : option string :=
  match entries with
  | [] => None
  | (n, v) :: rest => if String.eqb n name then Some v else first_value name rest
  end.

(** [input.value = v] on the first input with that name. *)
Fixpoint set_value (name v : string) (entries : list (string * string))
  : list (string * string) :=
  match entries with
  | [] => []
  | (n, old) :: rest =>
      if String.eqb n name then (n, v) :: rest else (n, old) :: set_value name v rest
  end.

(** Lines 287-294: the loop over the [cart-items-component] elements appends
    one [sections] entry per element, each time with the identifiers
    collected so far. *)
Fixpoint append_sections (components : list (option string)) (ids : list string)
    (formData : list (string * string)) : list (string * string) :=
  match components with
  | [] => formData
  | c :: rest =>
      let ids' := match truthy_string c with
                  | Some sectionId => ids ++ [sectionId]
                  | None => ids
                  end in
      append_sections rest ids' (formData ++ [("sections", JS.join "," ids')])
  end.

(** [Number(formData.get('quantity')) || Number(this.dataset.quantityDefault)],
    lines 341 and 376. *)
Definition nominal_quantity (formData : list (string * string)) (p : product_form)
  : JS.number :=
  JS.or_else (JS.Number_nullable (first_value "quantity" formData))
             (JS.Number_optional (dataset p !! "quantityDefault")).

(** Where the model of [Number] is exact: the value is absent, or it is a
    signed decimal integer numeral (white space around it allowed, the empty
    string included) of magnitude at most 2^53, which [Number] maps to that
    integer without rounding.  A numeral of negative zero is left out, the
    model having one zero. *)
Definition plain_integer (v : option string) : bool :=
  match v with
  | None => true
  | Some s =>
      match JS.Number_of_string s with
      | JS.Num z =>
          (Z.abs z <=? 2 ^ 53) && negb ((z =? 0) && String.prefix "-" (JS.skip_white s))
      | JS.NaN => false
      end
  end.

(** The part of [#fetchAndUpdateCartQuantity] that runs before the first
    [await], lines 187-191: [Some 0] when the promise is already resolved
    with [0], [None] when a request is now in flight. *)
Definition fetchAndUpdateCartQuantity : M (option Z) :=
  let* w := get in
  match truthy_string (first_value "id" (controls (pf w))) with
  | None => ret (Some 0)
  | Some _ => fetch CartGet;; ret None
  end.

(** [cart.items.find(item => item.variant_id.toString() === value)], lines
    194-197: the first match; reading [toString] of a missing field throws. *)
Fixpoint find_item (value : string) (l : list cart_item) : M (option cart_item) :=
  match l with
  | [] => ret None
  | item :: rest =>
      match variant_id item with
      | None => throw "TypeError: Cannot read properties of undefined (reading 'toString')"
      | Some v =>
          if String.eqb (JS.toString v) value then ret (Some item)
          else find_item value rest
      end
  end.

(** [#updateQuantityLabel(cartQty)], lines 395-406; of the label the model
    keeps its class ['hidden']. *)
Definition updateQuantityLabel (cartQty : Z) : M unit :=
  modify_pf (fun p => set_label ((fun _ => cartQty =? 0) <$> quantityLabelCartCount p) p).

(** The body of the [try] of [#fetchAndUpdateCartQuantity] once the
    request has settled, lines 191-209. *)
Definition cart_quantity_body (r : fetched cart) : M Z :=
  match r with
  | NetworkError => throw "TypeError: Failed to fetch"
  | ParseError => throw "SyntaxError: Unexpected token"
  | Json c =>
      match items c with
      | None => throw "TypeError: Cannot read properties of undefined (reading 'find')"
      | Some l =>
          let* w := get in
          match first_value "id" (controls (pf w)) with
          | None => throw "TypeError: Cannot read properties of null (reading 'value')"
          | Some value =>
              let* cartItem := find_item value l in
              let cartQty := match cartItem with Some i => quantity i | None => 0 end in
              modify_pf (fun p =>
                match quantitySelector p with
                | Some q =>
                    if setCartQuantity q
                    then set_quantitySelector
                           (Some (QuantitySelector (canAddToCart q) true cartQty)) p
                    else p
                | None => p
                end);;
              updateQuantityLabel cartQty;;
              ret cartQty
          end
      end
  end.

(** [#fetchAndUpdateCartQuantity] from its first [await] on, lines 190-213:
    the value the promise is resolved with. *)
Definition fetchAndUpdateCartQuantity_settled (r : fetched cart) : M Z :=
  try_catch (cart_quantity_body r)
            (fun error =>
               console_error ("Failed to fetch cart quantity: " +:+ error);;
               ret 0).

(** [#fetchAndUpdateCartQuantity] as a whole, lines 186-214, when its
    request settles with [r] before anything else happens: the value the
    promise is resolved with. *)
Definition fetchAndUpdateCartQuantity_resolved (r : fetched cart) : M Z :=
  let* started := fetchAndUpdateCartQuantity in
  match started with
  | Some cartQty => ret cartQty
  | None => fetchAndUpdateCartQuantity_settled r
  end.

(** [#onCartUpdate], lines 220-225; [sourceId] and [source] are
    [event.detail?.sourceId] and [event.detail?.data?.source]. *)
Definition onCartUpdate (sourceId source : option string) : M unit :=
  let* w := get in
  if bool_decide (sourceId = Some (id (pf w)))
     || bool_decide (source = Some "product-form-component")
  then ret tt
  else fetchAndUpdateCartQuantity;; ret tt.

(** [addToCartButtonContainer?.refs.addToCartButton?.disabled], line 240. *)
Definition button_disabled (p : product_form) : bool :=
  match addToCartButtonContainer p with
  | Some c => disabled c
  | None => false
  end.

(** [handleSubmit(event)], lines 232-298, up to the [fetch]. *)
Definition handleSubmit : M unit :=
  let* w := get in
  clear_if_set (timeout (pf w));;
  if button_disabled (pf w) then ret tt
  else
    match form (pf w) with
    | None => throw "Product form element missing"
    | Some f =>
        match validate (pf w) with
        | Some (Validation false maximum) =>
            on_container disable;;
            let errorTemplate := default EmptyString (dataset (pf w) !! "quantityErrorMax") in
            let errorMessage := JS.replace "{{ maximum }}" (JS.toString maximum) errorTemplate in
            match addToCartTextError (pf w) with
            | Some e =>
                modify_pf (set_error (Some (show_error errorMessage e)));;
                setLiveRegionText errorMessage;;
                let* w' := get in
                clear_if_set (timeout (pf w'));;
                let* i := setTimeout HideError ERROR_MESSAGE_DISPLAY_DURATION in
                modify_pf (set_timeout (Some i))
            | None => ret tt
            end;;
            setTimeout EnableButton ERROR_BUTTON_REENABLE_DELAY;;
            ret tt
        | _ =>
            let formData :=
              append_sections (cartItemsComponents w) [] (controls (pf w)) in
            fetch (CartAdd formData (form_id f))
        end
    end.

(** The handler of the parsed answer to the POST, lines 306-382. *)
Definition cart_add_then (formData : list (string * string)) (formId : option string)
    (response : add_response) : M unit :=
  if JS.truthy_value (status response) then
    dispatchEvent (CartErrorEvent (default EmptyString (truthy_string formId))
                                  (message response) (response_description response)
                                  (response_errors response));;
    let* w := get in
    match addToCartTextError (pf w) with
    | None => ret tt
    | Some e =>
        modify_pf (set_error (Some (show_error (message response) e)));;
        setLiveRegionText (message response);;
        let* i := setTimeout HideError ERROR_MESSAGE_DISPLAY_DURATION in
        modify_pf (set_timeout (Some i));;
        let* w := get in
        dispatchEvent
          (CartAddEvent (id (pf w))
             (AddDetail true "product-form-component" (nominal_quantity formData (pf w))
                        (dataset (pf w) !! "productId") None))
    end
  else
    let id := first_value "id" formData in
    modify_pf (fun p =>
      match addToCartTextError p with
      | Some e => set_error (Some (ErrorElement true false (childNodes e))) p
      | None => p
      end);;
    match truthy_string id with
    | None => throw "Form ID is required"
    | Some id =>
        let* w := get in
        match addToCartButtonContainer (pf w) with
        | Some c =>
            let addedText := default (translations_added w) (truthy_string (addedText c)) in
            setLiveRegionText addedText;;
            setTimeout ClearLiveRegion SUCCESS_MESSAGE_DISPLAY_DURATION;;
            ret tt
        | None => ret tt
        end;;
        fetchAndUpdateCartQuantity;;
        let* w := get in
        dispatchEvent
          (CartAddEvent id
             (AddDetail false "product-form-component" (nominal_quantity formData (pf w))
                        (dataset (pf w) !! "productId") (response_sections response)))
    end.

(** The promise chain of the POST once it has settled, lines 305-388: a
    rejection, or an exception of the handler, goes to [console.error]. *)
Definition cart_add_settled (formData : list (string * string)) (formId : option string)
    (r : fetched add_response) : M unit :=
  try_catch
    (match r with
     | NetworkError => throw "TypeError: Failed to fetch"
     | ParseError => throw "SyntaxError: Unexpected token"
     | Json response => cart_add_then formData formId response
     end)
    console_error.

(** *** Variant changes *)

(** The variant carried by a variant-update event. *)
Record variant := Variant {
  variant_ident : Z;                  (** [resource.id] *)
  available : bool;
  preview_image_src : option string   (** [featured_media?.preview_image?.src] *)
}.

(** What [#onVariantUpdate] reads of its event: [event.detail.resource],
    [data.newProduct?.id], [data.productId] and the markup of the
    [[ref="addToCartButton"]] element of [data.html]. *)
Record variant_update := VariantUpdate {
  resource : option variant;
  newProduct : option string;
  event_productId : option string;
  newAddToCartButton : option string
}.

(** [resource == null || resource.available == false]. *)
Definition unavailable (r : option variant) : bool :=
  match r with
  | None => true
  | Some v => negb (available v)
  end.

(** Modelled from the spec: [morph] of [@theme/morph] is not in this file;
    the spec has it patch "the button's inner markup", and line 465 has it
    "update the add to cart button text and icon".  It replaces the markup
    of the button and leaves the properties this file sets. *)
Definition morph (newElement : string) : add_to_cart -> add_to_cart :=
  set_markup newElement.

(** [#onVariantUpdate], lines 440-484 and 543.  Lines 486-540 update the
    constraints of the quantity widget and patch the label, the rules and
    the buttons region with [morph]; the state keeps none of what they
    change. *)
Definition onVariantUpdate (e : variant_update) : M unit :=
  let* w := get in
  let* same_product :=
    match newProduct e with
    | Some newId =>
        modify_pf (fun p => set_dataset (<["productId" := newId]> (dataset p)) p);;
        ret true
    | None => ret (bool_decide (event_productId e = dataset (pf w) !! "productId"))
    end in
  if negb same_product then ret tt
  else
    let value := match resource e with
                 | Some v => JS.toString (variant_ident v)
                 | None => EmptyString
                 end in
    modify_pf (fun p => set_controls (set_value "id" value (controls p)) p);;
    match addToCartButtonContainer (pf w), acceleratedCheckoutButtonContainer (pf w) with
    | None, None => ret tt
    | currentAddToCartButton, accelerated =>
        match currentAddToCartButton with
        | Some _ =>
            on_container (if unavailable (resource e) then disable else enable);;
            match newAddToCartButton e with
            | Some newButton => on_container (morph newButton)
            | None => ret tt
            end
        | None => ret tt
        end;;
        match accelerated with
        | Some _ => modify_pf (set_accelerated (Some (unavailable (resource e))))
        | None => ret tt
        end;;
        match resource e ≫= fun v => truthy_string (preview_image_src v) with
        | Some productVariantMedia =>
            on_container (fun c =>
              set_atc_dataset (<["productVariantMedia" := productVariantMedia +:+ "&width=100"]>
                                 (atc_dataset c)) c)
        | None => ret tt
        end;;
        fetchAndUpdateCartQuantity;;
        ret tt
    end.

(** [#onVariantSelected], lines 550-552. *)
Definition onVariantSelected : M unit := on_container disable.

(** ** The event loop *)

Definition run_callback (cb : callback) : M unit :=
  match cb with
  | HideError => hideError
  | EnableButton => on_container enable
  | ClearLiveRegion => clearLiveRegionText
  | AnimationEnd => animationEnd
  | Cleanup => cleanup
  end.

(** A pending timer fires: it leaves the table, the clock stands at its due
    time, its callback runs. *)
Definition fire (t : timer) (w : world) : world :=
  exec (run_callback (timer_callback t))
       (set_now (Z.max (now w) (due t))
                (set_timers (next_timer w) (remove_timer (timer_id t) (timers w)) w)).

(** The timer that fires next: the earliest, the oldest among equals. *)
Fixpoint earliest (ts : list timer) : option timer :=
  match ts with
  | [] => None
  | t :: rest =>
      match earliest rest with
      | Some t' => if due t' <? due t then Some t' else Some t
      | None => Some t
      end
  end.

Fixpoint run_timers (fuel : nat) (until : Z) (w : world) : world :=
  match fuel with
  | O => w
  | S fuel =>
      match earliest (timers w) with
      | Some t => if due t <=? until then run_timers fuel until (fire t w) else w
      | None => w
      end
  end.

(** How many firings a pending timer can cause: the outer callback of
    [animateAddToCart] schedules one more timer, the others none. *)
Definition chain (cb : callback) : nat :=
  match cb with
  | AnimationEnd => 2
  | _ => 1
  end.

Definition budget (ts : list timer) : nat :=
  foldr (fun t n => (chain (timer_callback t) + n)%nat) O ts.

(** [ms] milliseconds pass with no other event: every timer due by then
    fires, in order. *)
Definition elapse (ms : Z) (w : world) : world :=
  let until := now w + ms in
  let w' := run_timers (budget (timers w)) until w in
  set_now (Z.max (now w') until) w'.

(** The answer to request [n] arrives. *)
Definition cart_add_settles (n : nat) (r : fetched add_response) (w : world) : world :=
  match inflight w !! n with
  | Some (CartAdd formData formId) =>
      exec (cart_add_settled formData formId r)
           (set_inflight (next_request w) (delete n (inflight w)) w)
  | _ => w
  end.

Definition cart_get_settles (n : nat) (r : fetched cart) (w : world) : world :=
  match inflight w !! n with
  | Some CartGet =>
      exec (fetchAndUpdateCartQuantity_settled r)
           (set_inflight (next_request w) (delete n (inflight w)) w)
  | _ => w
  end.

(** What can happen to the page. *)
Inductive action :=
| Click (in_quick_add_modal : bool)
| Submit
| CartAddSettles (n : nat) (r : fetched add_response)
| CartGetSettles (n : nat) (r : fetched cart)
| VariantUpdated (e : variant_update)
| VariantSelected
| CartUpdated (sourceId source : option string)
| Elapse (ms : Z).

Definition step (w : world) (a : action) : world :=
  match a with
  | Click in_quick_add_modal => exec (handleClick in_quick_add_modal) w
  | Submit => exec handleSubmit w
  | CartAddSettles n r => cart_add_settles n r w
  | CartGetSettles n r => cart_get_settles n r w
  | VariantUpdated e => exec (onVariantUpdate e) w
  | VariantSelected => exec onVariantSelected w
  | CartUpdated sourceId source => exec (onCartUpdate sourceId source) w
  | Elapse ms => elapse ms w
  end.

Definition run (w : world) (l : list action) : world := foldl step w l.

(** The pending timers with a given callback. *)
Definition pending (cb : callback) (w : world) : list timer :=
  filter (fun t => timer_callback t = cb) (timers w).

(** [if (id) clearTimeout(id)] on the table of pending timers. *)
Definition remove_if_set (i : option positive) (ts : list timer) : list timer :=
  match i with
  | Some i => remove_timer i ts
  | None => ts
  end.

(** Where [show_error] puts the message: the third child node, or the node
    appended after the last one when there are fewer than three. *)
Definition error_node (e : error_element) : nat := Nat.min 2 (List.length (childNodes e)).

(** Whether the error element shows: it exists without the class ['hidden']. *)
Definition error_visible (p : product_form) : bool :=
  match addToCartTextError p with
  | Some e => negb (hidden e)
  | None => false
  end.

(** The message of a rejected submission, lines 254-255. *)
Definition quantity_error_message (p : product_form) (maximum : Z) : string :=
  JS.replace "{{ maximum }}" (JS.toString maximum)
             (default EmptyString (dataset p !! "quantityErrorMax")).

(** Lines 68-78 of [handleClick]: the enclosing form is valid and the
    quantity widget, when it can tell, accepts. *)
Definition valid_click (p : product_form) : bool :=
  match form p with
  | Some f =>
      checkValidity f &&
      match validate p with
      | Some v => canAdd v
      | None => true
      end
  | None => false
  end.

(** The quantity of the first item of the cart with the given variant, [0]
    when there is none: what the spec has [#fetchAndUpdateCartQuantity]
    return on success. *)
Definition quantity_in_cart (value : string) (l : list cart_item) : Z :=
  match List.find (fun i => bool_decide (JS.toString <$> variant_id i = Some value)) l with
  | Some i => quantity i
  | None => 0
  end.

(** ** Example pages *)

Definition example_button : add_to_cart :=
  AddToCart false false "Add to cart" (Some "Added")
            (<["addToCartAnimation" := "true"]> (<["productVariantMedia" := "cup.png"]> ∅))
            None None.

(** A product form whose quantity widget holds 5 against a maximum of 3. *)
Definition example_form : product_form :=
  ProductForm "product-form-1"
    (<["quantityErrorMax" := "You can only add {{ maximum }} of this item"]>
       (<["quantityDefault" := "1"]> (<["productId" := "77"]> ∅)))
    None (Some example_button)
    (Some (ErrorElement true false ["icon"; " "]))
    (Some false) EmptyString (Some true)
    (Some (FormElement (Some "form-1") true))
    [("id", "42"); ("quantity", "5")]
    (Some (QuantitySelector (Some (Validation false 3)) true 0)).

Definition example_page : world :=
  World 0 1 [] 0 ∅ [] [] [] true [Some "cart-drawer"] "Added to cart" example_form.

(** The same page without the optional ref [addToCartTextError]. *)
Definition without_error_element (w : world) : world :=
  set_pf (set_error None (pf w)) w.

(** The same page with a quantity widget that accepts. *)
Definition accepting (w : world) : world :=
  set_pf (set_quantitySelector (Some (QuantitySelector (Some (Validation true 3)) true 0)) (pf w)) w.

Definition sold_out : add_response :=
  AddResponse (JS.Number (JS.Num 422)) "Sold out" EmptyString EmptyString None.

Definition too_many : add_response :=
  AddResponse (JS.Number (JS.Num 422)) "Only 3 left" EmptyString EmptyString None.

Definition added_response : add_response :=
  AddResponse JS.Undefined EmptyString EmptyString EmptyString (Some [("cart-drawer", "<div></div>")]).

(** ** The life of the class ['atc-added'] *)

(** Whether the button carries the class ['atc-added']. *)
Definition has_added (w : world) : option bool :=
  atc_added <$> addToCartButtonContainer (pf w).

(** A timer of [animateAddToCart]. *)
Definition is_animation (t : timer) : Prop :=
  timer_callback t = AnimationEnd \/ timer_callback t = Cleanup.

(** Identifiers are handed out in increasing order. *)
Definition timers_fresh (w : world) : Prop :=
  forall t, t ∈ timers w -> (timer_id t < next_timer w)%positive.

(** Every pending timer of [animateAddToCart] is the one [#animationTimeout]
    or [#cleanupTimeout] holds. *)
Definition animation_timers_tracked (w : world) : Prop :=
  forall t, t ∈ timers w -> is_animation t ->
    exists c, addToCartButtonContainer (pf w) = Some c /\
              (animationTimeout c = Some (timer_id t) \/ cleanupTimeout c = Some (timer_id t)).

(** The two timers of a click at time [T0] that got identifier [a]. *)
Definition animation_timer (T0 : Z) (a : positive) : timer :=
  Timer a (T0 + ADD_TO_CART_TEXT_ANIMATION_DURATION) AnimationEnd.
Definition cleanup_timer (T0 : Z) (a : positive) : timer :=
  Timer (Pos.succ a) (T0 + ADD_TO_CART_TEXT_ANIMATION_DURATION + 10) Cleanup.

(** The three stages after a click: the outer timer is pending, the inner
    timer is pending, the class is gone. *)
Definition awaiting_animation_end (T0 : Z) (a : positive) (w : world) : Prop :=
  has_added w = Some true /\
  now w <= T0 + ADD_TO_CART_TEXT_ANIMATION_DURATION /\
  next_timer w = Pos.succ a /\
  animation_timer T0 a ∈ timers w /\
  (forall t, t ∈ timers w -> is_animation t \/ timer_id t = a -> t = animation_timer T0 a) /\
  (forall t, t ∈ timers w -> timer_id t <> Pos.succ a).

Definition awaiting_cleanup (T0 : Z) (a : positive) (w : world) : Prop :=
  has_added w = Some true /\
  cleanup_timer T0 a ∈ timers w /\
  (forall t, t ∈ timers w -> is_animation t \/ timer_id t = Pos.succ a -> t = cleanup_timer T0 a).

Definition animation_over (w : world) : Prop :=
  has_added w = Some false /\ forall t, t ∈ timers w -> ~ is_animation t.

(** The stage a run up to time [until] can be in. *)
Definition in_progress (T0 : Z) (a : positive) (until : Z) (w : world) : Prop :=
  awaiting_animation_end T0 a w \/
  (awaiting_cleanup T0 a w /\ T0 + ADD_TO_CART_TEXT_ANIMATION_DURATION <= until) \/
  (animation_over w /\ T0 + ADD_TO_CART_TEXT_ANIMATION_DURATION + 10 <= until).

(** ** The rest of the components *)

(** [AddToCartComponent.disconnectedCallback], lines 40-46: both timers of
    the button are cleared. *)
Definition disconnectedCallback : M unit :=
  let* w := get in
  match addToCartButtonContainer (pf w) with
  | None => ret tt
  | Some c =>
      clear_if_set (animationTimeout c);;
      clear_if_set (cleanupTimeout c)
  end.

(** An element the variant update may patch: [None] when it is not in the
    document, its markup otherwise. *)
Definition element := option string.

(** [#morphOrUpdateElement(currentElement, newElement, insertReferenceElement)],
    lines 427-435: what stands in the document afterwards.  [morph] makes
    the current element carry the new markup; [insertReference] tells
    whether the reference element exists. *)
Definition morphOrUpdateElement (currentElement newElement : element)
    (insertReference : bool) : element :=
  match currentElement, newElement with
  | Some _, Some new => Some new
  | Some _, None => None
  | None, Some new => if insertReference then Some new else None
  | None, None => None
  end.

(** The listeners of a [ProductFormComponent], lines 159-180: whether the
    signal of [#abortController] is aborted, whether the two variant
    listeners stand on the enclosing section, dialog or product card, and
    whether the cart listener stands on the document. *)
Record listeners := Listeners {
  aborted : bool;
  variant_listeners : bool;
  cart_listener : bool
}.

(** A component as its constructor leaves it. *)
Definition constructed : listeners := Listeners false false false.

(** [ProductFormComponent.connectedCallback], lines 164-174; [target] tells
    whether [this.closest('.shopify-section, dialog, product-card')] finds
    an element.  [addEventListener] with an aborted signal adds nothing. *)
Definition connectedCallback (target : bool) (l : listeners) : listeners :=
  if aborted l then l
  else Listeners false (variant_listeners l || target) true.

(** [ProductFormComponent.disconnectedCallback], lines 176-180: the
    controller is aborted, which removes the listeners added with its
    signal. *)
Definition abort (l : listeners) : listeners := Listeners true false false.

(** An event reaches the component: the variant and cart events go through
    the listeners, everything else happens as before. *)
Definition deliver (l : listeners) (w : world) (a : action) : world :=
  match a with
  | VariantUpdated _ | VariantSelected => if variant_listeners l then step w a else w
  | CartUpdated _ _ => if cart_listener l then step w a else w
  | _ => step w a
  end.

(** The [sections] entries the loop of lines 287-294 appends for the
    components seen so far: the [k]-th entry joins the section identifiers
    of the first [k] components. *)
Definition sections_entries (components : list (option string)) : list (string * string) :=
  (fun k => ("sections", JS.join "," (omap truthy_string (take (S k) components))))
    <$> seq 0 (List.length components).

(** A page on which no timer is pending. *)
Definition quiet (w : world) : Prop := timers w = [].

(** What the timers keep between the events: identifiers are fresh, a
    pending outer timer of [animateAddToCart] is the one [#animationTimeout]
    holds and excludes a pending inner timer, a pending inner timer is the
    one [#cleanupTimeout] holds. *)
Definition timers_well_formed (w : world) : Prop :=
  timers_fresh w /\
  (forall t, t ∈ timers w -> timer_callback t = AnimationEnd ->
     (exists c, addToCartButtonContainer (pf w) = Some c /\
                animationTimeout c = Some (timer_id t)) /\
     (forall t', t' ∈ timers w -> timer_callback t' <> Cleanup)) /\
  (forall t, t ∈ timers w -> timer_callback t = Cleanup ->
     exists c, addToCartButtonContainer (pf w) = Some c /\
               cleanupTimeout c = Some (timer_id t)).

(** An event leaves the timers of [animateAddToCart] alone: the container
    keeps its two identifiers, identifiers only grow, and every pending
    timer was pending before or is a new one of another kind. *)
Definition animation_untouched (w w' : world) : Prop :=
  (next_timer w <= next_timer w')%positive /\
  (fun c => (animationTimeout c, cleanupTimeout c)) <$> addToCartButtonContainer (pf w') =
    (fun c => (animationTimeout c, cleanupTimeout c)) <$> addToCartButtonContainer (pf w) /\
  (forall t, t ∈ timers w' ->
     t ∈ timers w \/
     (~ is_animation t /\ (next_timer w <= timer_id t < next_timer w')%positive)).

(** The value a processed variant update writes into the variant input,
    line 453: [event.detail.resource?.id ?? '']. *)
Definition variant_id_value (e : variant_update) : string :=
  match resource e with
  | Some v => JS.toString (variant_ident v)
  | None => EmptyString
  end.

(** The image a click sends to the cart, when it sends one: lines 68-86 and
    100-106. *)
Definition flight_of_click (in_quick_add_modal : bool) (w : world) : option string :=
  if valid_click (pf w) && negb in_quick_add_modal && cartIcon w then
    c ← addToCartButtonContainer (pf w);
    if bool_decide (atc_dataset c !! "addToCartAnimation" = Some "true")
    then truthy_string (atc_dataset c !! "productVariantMedia")
    else None
  else None.

(** ** Theorems *)

(** *** The fly-to-cart geometry *)

Section BezierFacts.

Import Bezier.
Local Open Scope Q_scope.


Lemma Qmin_reaches_one e : Qle_bool 1 (Qmin (e / 600) 1) = Qle_bool 600 e.
Proof.
  assert (He : e == e / 600 * 600) by (field; discriminate).
  unfold Qmin. generalize dependent (e / 600). intros q He.
  destruct (Qle_bool q 1) eqn:H.
  - apply eq_true_iff_eq. rewrite !Qle_bool_iff. split; intros H'; lra.
  - assert (~ q <= 1) as Hn by (rewrite <- Qle_bool_iff; congruence).
    symmetry. change (Qle_bool 1 1) with true. apply Qle_bool_iff. lra.
Qed.

Lemma Qmin_one e : 600 <= e -> Qmin (e / 600) 1 == 1.
Proof.
  intros Hle.
  assert (He : e == e / 600 * 600) by (field; discriminate).
  unfold Qmin. generalize dependent (e / 600). intros q He.
  destruct (Qle_bool q 1) eqn:H; [|reflexivity].
  apply Qle_bool_iff in H. lra.
Qed.

Lemma bezierPoint_end t p0 p1 p2 p3 :
  t == 1 ->
  x (bezierPoint t p0 p1 p2 p3) == x p3 /\ y (bezierPoint t p0 p1 p2 p3) == y p3.
Proof. intros Ht. unfold bezierPoint; cbn [x y]. rewrite Ht. split; ring. Qed.

Lemma animate_frame_position p t f :
  position (animate_frame p t f) =
    bezierPoint
      (Qmin ((t - (if startTime_unset (startTime f) then t else default 0 (startTime f)))
             / duration p) 1)
      (startPoint p) (controlPoint1 p) (controlPoint2 p) (endPoint p).
Proof. unfold animate_frame. now destruct (Qle_bool 1 _). Qed.

(** C9: [#animate] starts the path at the centre of the source and ends it at
    the centre of the destination, each moved by half the size of the flying
    element; the first control point is 200 px above the start, the second
    300 px left of and 100 px above the end; the duration is 600 ms: a frame
    asks for another one exactly while less than 600 ms have passed since
    the start, and a frame at 600 ms or later is drawn at the end point. *)
Theorem animate_path_geometry (own source destination : rect) :
  let p := animate_path own source destination in
  (x (startPoint p) == x (centre source) - width own / 2 /\
   y (startPoint p) == y (centre source) - height own / 2) /\
  (x (endPoint p) == x (centre destination) - width own / 2 /\
   y (endPoint p) == y (centre destination) - height own / 2) /\
  controlPoint1 p = Point (x (startPoint p)) (y (startPoint p) - 200) /\
  controlPoint2 p = Point (x (endPoint p) - 300) (y (endPoint p) - 100) /\
  duration p = 600 /\
  position (animate_start p) = startPoint p /\
  (forall started t f,
      startTime f = Some started -> ~ started == 0 ->
      frame_requested (animate_frame p t f) = negb (Qle_bool 600 (t - started))) /\
  (forall started t f,
      startTime f = Some started -> ~ started == 0 -> 600 <= t - started ->
      x (position (animate_frame p t f)) == x (endPoint p) /\
      y (position (animate_frame p t f)) == y (endPoint p)).
Proof.
  intros p.
  assert (Hstarted : forall started, ~ started == 0 -> Qeq_bool started 0 = false).
  { intros started Hne. destruct (Qeq_bool started 0) eqn:E; [|reflexivity].
    apply Qeq_bool_iff in E. tauto. }
  split; [split; reflexivity|].
  split; [split; reflexivity|].
  do 4 (split; [reflexivity|]).
  split.
  - intros started t f Hs Hne. unfold animate_frame.
    rewrite Hs. cbn [startTime_unset default from_option Datatypes.id]. rewrite (Hstarted _ Hne).
    change (duration p) with 600.
    rewrite Qmin_reaches_one. now destruct (Qle_bool 600 (t - started)).
  - intros started t f Hs Hne Hle. rewrite animate_frame_position.
    rewrite Hs. cbn [startTime_unset default from_option Datatypes.id]. rewrite (Hstarted _ Hne).
    change (duration p) with 600.
    apply (bezierPoint_end _ _ _ _ _ (Qmin_one _ Hle)).
Qed.

End BezierFacts.

(** *** The table of timers *)

Ltac open_world w :=
  destruct w as [wnow wnext wtimers wreq wfly wdisp wcons wflights wicon wcarts wadded p];
  destruct p as [pid ds tmo cont err acc live lbl frm ctl qs]; cbn in *.

Section TimerFacts.

Lemma elem_of_remove_timer t i ts : t ∈ remove_timer i ts <-> timer_id t <> i /\ t ∈ ts.
Proof. unfold remove_timer. apply (list_elem_of_filter (fun t => timer_id t <> i)). Qed.

Lemma elem_of_remove_if_set t i ts : t ∈ remove_if_set i ts <-> Some (timer_id t) <> i /\ t ∈ ts.
Proof.
  destruct i as [i|]; cbn.
  - rewrite elem_of_remove_timer. split; intros [H1 H2]; split; congruence.
  - split; [intros H; split; [discriminate | exact H] | tauto].
Qed.

Lemma fire_timers t w :
  timers (fire t w) =
    remove_timer (timer_id t) (timers w) ++
    match timer_callback t with
    | AnimationEnd => [Timer (next_timer w) (Z.max (now w) (due t) + 10) Cleanup]
    | _ => []
    end.
Proof.
  destruct t as [i d cb]. unfold fire, exec. open_world w.
  destruct cb; cbn; unfold hideError, bind, get; cbn;
    try destruct err; cbn; rewrite ?app_nil_r; reflexivity.
Qed.

Lemma fire_now t w : now (fire t w) = Z.max (now w) (due t).
Proof.
  destruct t as [i d cb]. unfold fire, exec. open_world w.
  destruct cb; cbn; unfold hideError, bind, get; cbn; try destruct err; reflexivity.
Qed.

Lemma fire_has_added t w :
  has_added (fire t w) =
    match timer_callback t with
    | Cleanup => (fun _ => false) <$> has_added w
    | _ => has_added w
    end.
Proof.
  destruct t as [i d cb]. unfold fire, exec, has_added. open_world w.
  destruct cb; cbn; unfold hideError, bind, get; cbn; try destruct err; cbn;
    destruct cont; reflexivity.
Qed.

Lemma fire_next_timer t w :
  next_timer (fire t w) =
    match timer_callback t with
    | AnimationEnd => Pos.succ (next_timer w)
    | _ => next_timer w
    end.
Proof.
  destruct t as [i d cb]. unfold fire, exec. open_world w.
  destruct cb; cbn; unfold hideError, bind, get; cbn; try destruct err; reflexivity.
Qed.

Lemma chain_pos cb : (1 <= chain cb)%nat.
Proof. destruct cb; cbn; lia. Qed.

Lemma budget_cons t ts : budget (t :: ts) = (chain (timer_callback t) + budget ts)%nat.
Proof. reflexivity. Qed.

Lemma budget_app ts ts' : budget (ts ++ ts') = (budget ts + budget ts')%nat.
Proof.
  induction ts as [|t ts IH]; [reflexivity|].
  rewrite <- app_comm_cons, !budget_cons, IH. lia.
Qed.

Lemma budget_remove_le i ts : (budget (remove_timer i ts) <= budget ts)%nat.
Proof.
  unfold remove_timer. induction ts as [|t ts IH]; [reflexivity|].
  rewrite filter_cons. case_decide; rewrite !budget_cons; lia.
Qed.

Lemma budget_remove t ts :
  t ∈ ts -> (budget (remove_timer (timer_id t) ts) + chain (timer_callback t) <= budget ts)%nat.
Proof.
  unfold remove_timer. induction 1 as [t ts|t t' ts Hin IH].
  - rewrite filter_cons, decide_False by tauto.
    pose proof (budget_remove_le (timer_id t) ts) as H. unfold remove_timer in H.
    rewrite budget_cons. lia.
  - rewrite filter_cons. case_decide; rewrite !budget_cons; lia.
Qed.

Lemma budget_fire t w :
  t ∈ timers w -> (budget (timers (fire t w)) < budget (timers w))%nat.
Proof.
  intros Hin. rewrite fire_timers, budget_app.
  pose proof (budget_remove t (timers w) Hin) as H.
  destruct (timer_callback t); cbn in *; lia.
Qed.

Lemma budget_zero ts : budget ts = O -> ts = [].
Proof.
  destruct ts as [|t ts]; [reflexivity|]. rewrite budget_cons.
  pose proof (chain_pos (timer_callback t)). lia.
Qed.

Lemma earliest_None ts : earliest ts = None -> ts = [].
Proof.
  destruct ts as [|t ts]; [reflexivity|]. cbn.
  destruct (earliest ts) as [t'|]; [destruct (due t' <? due t)|]; discriminate.
Qed.

Lemma earliest_Some ts t :
  earliest ts = Some t -> t ∈ ts /\ forall t', t' ∈ ts -> due t <= due t'.
Proof.
  revert t. induction ts as [|t0 ts IH]; intros t; cbn; [discriminate|].
  destruct (earliest ts) as [t1|] eqn:He.
  - destruct (IH t1 eq_refl) as [Hin Hle].
    destruct (Z.ltb_spec (due t1) (due t0)); intros [= <-].
    + split; [now apply elem_of_cons; right|].
      intros t' [->|H']%elem_of_cons; [lia | now apply Hle].
    + split; [now apply elem_of_cons; left|].
      intros t' [->|H']%elem_of_cons; [lia | specialize (Hle t' H'); lia].
  - apply earliest_None in He. subst ts. intros [= <-].
    split; [now apply elem_of_cons; left|].
    intros t' [->|H']%elem_of_cons; [lia | now apply not_elem_of_nil in H'].
Qed.

(** The fuel [elapse] gives is enough: no timer due by then is left. *)
Lemma run_timers_quiescent until fuel : forall w,
  (budget (timers w) <= fuel)%nat ->
  forall t, t ∈ timers (run_timers fuel until w) -> until < due t.
Proof.
  induction fuel as [|fuel IH]; intros w Hb t Hin; cbn in Hin.
  - assert (timers w = []) as Hnil by (apply budget_zero; lia).
    rewrite Hnil in Hin. now apply not_elem_of_nil in Hin.
  - destruct (earliest (timers w)) as [t0|] eqn:He.
    + destruct (earliest_Some _ _ He) as [Hin0 Hle].
      destruct (Z.leb_spec (due t0) until).
      * apply (IH (fire t0 w)); [|exact Hin].
        pose proof (budget_fire t0 w Hin0). lia.
      * specialize (Hle t Hin). lia.
    + apply earliest_None in He. rewrite He in Hin. now apply not_elem_of_nil in Hin.
Qed.


Lemma awaiting_animation_end_fire T0 a w t :
  awaiting_animation_end T0 a w -> earliest (timers w) = Some t ->
  (t = animation_timer T0 a /\ awaiting_cleanup T0 a (fire t w)) \/
  (due t <= T0 + ADD_TO_CART_TEXT_ANIMATION_DURATION /\ awaiting_animation_end T0 a (fire t w)).
Proof.
  intros (Hadd & Hnow & Hnext & Hin & Honly & Hfresh) He.
  destruct (earliest_Some _ _ He) as [Ht Hle].
  pose proof (Hle _ Hin) as Hdue. cbn in Hdue.
  destruct (decide (is_animation t \/ timer_id t = a)) as [Ha|Hna].
  - left. pose proof (Honly t Ht Ha) as ->. split; [reflexivity|].
    split; [|split].
    + rewrite fire_has_added. exact Hadd.
    + rewrite fire_timers. cbn. apply elem_of_app. right. apply elem_of_cons. left.
      unfold cleanup_timer. rewrite Hnext. f_equal. lia.
    + intros t'. rewrite fire_timers. cbn.
      intros [Hin'|Hin']%elem_of_app Hc.
      * apply elem_of_remove_timer in Hin' as [Hid Hin'].
        destruct Hc as [Hc|Hc].
        -- specialize (Honly t' Hin' (or_introl Hc)). subst t'. now cbn in Hid.
        -- now apply Hfresh in Hin'.
      * apply elem_of_cons in Hin' as [->|Hin']; [|now apply not_elem_of_nil in Hin'].
        unfold cleanup_timer. rewrite Hnext. f_equal. lia.
  - right. split; [exact Hdue|].
    assert (Hcb : match timer_callback t with AnimationEnd | Cleanup => False | _ => True end).
    { unfold is_animation in Hna. destruct (timer_callback t); tauto. }
    assert (Hts : timers (fire t w) = remove_timer (timer_id t) (timers w)).
    { rewrite fire_timers. destruct (timer_callback t); try tauto; apply app_nil_r. }
    split; [|split; [|split; [|split; [|split]]]].
    + rewrite fire_has_added. destruct (timer_callback t); tauto.
    + rewrite fire_now. lia.
    + rewrite fire_next_timer. destruct (timer_callback t); tauto.
    + rewrite Hts. apply elem_of_remove_timer. split; [|exact Hin].
      cbn. intros Heq. apply Hna. now right.
    + intros t'. rewrite Hts. intros [_ Hin']%elem_of_remove_timer. now apply Honly.
    + intros t'. rewrite Hts. intros [_ Hin']%elem_of_remove_timer. now apply Hfresh.
Qed.

Lemma awaiting_cleanup_fire T0 a w t :
  awaiting_cleanup T0 a w -> earliest (timers w) = Some t ->
  (t = cleanup_timer T0 a /\ animation_over (fire t w)) \/
  (due t <= T0 + ADD_TO_CART_TEXT_ANIMATION_DURATION + 10 /\ awaiting_cleanup T0 a (fire t w)).
Proof.
  intros (Hadd & Hin & Honly) He.
  destruct (earliest_Some _ _ He) as [Ht Hle].
  pose proof (Hle _ Hin) as Hdue. cbn in Hdue.
  destruct (decide (is_animation t \/ timer_id t = Pos.succ a)) as [Ha|Hna].
  - left. pose proof (Honly t Ht Ha) as ->. split; [reflexivity|]. split.
    + rewrite fire_has_added. cbn. now rewrite Hadd.
    + intros t'. rewrite fire_timers. cbn. rewrite app_nil_r.
      intros [Hid Hin']%elem_of_remove_timer Hc.
      specialize (Honly t' Hin' (or_introl Hc)). subst t'. now cbn in Hid.
  - right. split; [exact Hdue|].
    assert (Hcb : match timer_callback t with AnimationEnd | Cleanup => False | _ => True end).
    { unfold is_animation in Hna. destruct (timer_callback t); tauto. }
    assert (Hts : timers (fire t w) = remove_timer (timer_id t) (timers w)).
    { rewrite fire_timers. destruct (timer_callback t); try tauto; apply app_nil_r. }
    split; [|split].
    + rewrite fire_has_added. destruct (timer_callback t); tauto.
    + rewrite Hts. apply elem_of_remove_timer. split; [|exact Hin].
      cbn. intros Heq. apply Hna. now right.
    + intros t'. rewrite Hts. intros [_ Hin']%elem_of_remove_timer. now apply Honly.
Qed.

Lemma animation_over_fire w t :
  animation_over w -> t ∈ timers w -> animation_over (fire t w).
Proof.
  intros [Hadd Hnone] Ht.
  assert (Hcb : match timer_callback t with AnimationEnd | Cleanup => False | _ => True end).
  { specialize (Hnone t Ht). unfold is_animation in Hnone. destruct (timer_callback t); tauto. }
  split.
  - rewrite fire_has_added. destruct (timer_callback t); tauto.
  - intros t'. rewrite fire_timers.
    destruct (timer_callback t); try tauto; rewrite app_nil_r;
      intros [_ Hin']%elem_of_remove_timer; now apply Hnone.
Qed.

Lemma run_timers_added T0 a until fuel : forall w,
  (budget (timers w) <= fuel)%nat ->
  in_progress T0 a until w ->
  has_added (run_timers fuel until w) =
    Some (bool_decide (until < T0 + ADD_TO_CART_TEXT_ANIMATION_DURATION + 10)).
Proof.
  induction fuel as [|fuel IH]; intros w Hb Hp.
  - assert (timers w = []) as Hnil by (apply budget_zero; lia).
    destruct Hp as [(_ & _ & _ & Hin & _)|[[(_ & Hin & _) _]|[[Hadd _] Hu]]].
    + rewrite Hnil in Hin. now apply not_elem_of_nil in Hin.
    + rewrite Hnil in Hin. now apply not_elem_of_nil in Hin.
    + cbn. rewrite Hadd, bool_decide_eq_false_2 by lia. reflexivity.
  - cbn [run_timers]. destruct (earliest (timers w)) as [t|] eqn:He.
    + destruct (earliest_Some _ _ He) as [Ht Hle].
      pose proof (budget_fire t w Ht) as Hlt.
      destruct (Z.leb_spec (due t) until) as [Hdue|Hdue].
      * apply IH; [lia|].
        destruct Hp as [HA|[[HB Hu]|[HC Hu]]].
        -- destruct (awaiting_animation_end_fire _ _ _ _ HA He) as [[-> HB]|[_ HA']].
           ++ right. left. split; [exact HB|]. exact Hdue.
           ++ now left.
        -- destruct (awaiting_cleanup_fire _ _ _ _ HB He) as [[-> HC]|[_ HB']].
           ++ right. right. split; [exact HC|]. exact Hdue.
           ++ right. left. now split.
        -- right. right. split; [now apply animation_over_fire | exact Hu].
      * destruct Hp as [HA|[[HB Hu]|[[Hadd _] Hu]]].
        -- destruct HA as (Hadd & _ & _ & Hin & _). specialize (Hle _ Hin). cbn in Hle.
           rewrite Hadd, bool_decide_eq_true_2 by (unfold ADD_TO_CART_TEXT_ANIMATION_DURATION in *; lia).
           reflexivity.
        -- destruct HB as (Hadd & Hin & _). specialize (Hle _ Hin). cbn in Hle.
           rewrite Hadd, bool_decide_eq_true_2 by lia. reflexivity.
        -- rewrite Hadd, bool_decide_eq_false_2 by lia. reflexivity.
    + apply earliest_None in He.
      destruct Hp as [(_ & _ & _ & Hin & _)|[[(_ & Hin & _) _]|[[Hadd _] Hu]]].
      * rewrite He in Hin. now apply not_elem_of_nil in Hin.
      * rewrite He in Hin. now apply not_elem_of_nil in Hin.
      * rewrite Hadd, bool_decide_eq_false_2 by lia. reflexivity.
Qed.


End TimerFacts.

(** *** AddToCartComponent *)

Section AddToCartFacts.

Lemma handleClick_invalid in_modal w :
  valid_click (pf w) = false -> exec (handleClick in_modal) w = w.
Proof.
  unfold valid_click, exec, handleClick, bind, get. cbn.
  destruct (form (pf w)) as [f|]; [|reflexivity].
  destruct (checkValidity f); [|reflexivity]. cbn.
  destruct (validate (pf w)) as [[[|] m]|]; cbn; try discriminate. reflexivity.
Qed.

Lemma handleClick_valid in_modal w c :
  valid_click (pf w) = true ->
  addToCartButtonContainer (pf w) = Some c ->
  let w' := exec (handleClick in_modal) w in
  has_added w' = Some true /\
  now w' = now w /\
  next_timer w' = Pos.succ (next_timer w) /\
  timers w' =
    remove_if_set (cleanupTimeout c) (remove_if_set (animationTimeout c) (timers w))
      ++ [animation_timer (now w) (next_timer w)].
Proof.
  intros Hv Hc w'. subst w'.
  unfold valid_click in Hv. unfold exec, handleClick, bind, get, has_added. cbn.
  destruct (form (pf w)) as [f|]; [|discriminate].
  destruct (checkValidity f); [|discriminate]. cbn in *.
  destruct (validate (pf w)) as [[[|] m]|]; cbn in Hv; try discriminate.
  all: unfold animateAddToCart, animateFlyToCart, bind, get; cbn.
  all: open_world w; subst cont; cbn.
  all: destruct c as [dis add mk at_ ads [i|] [j|]]; cbn.
  all: destruct (bool_decide (ads !! "addToCartAnimation" = Some "true")), in_modal; cbn.
  all: try (destruct wicon, (truthy_string (ads !! "productVariantMedia")); cbn).
  all: repeat split.
Qed.



End AddToCartFacts.

(** *** ProductFormComponent *)

Section ProductFormFacts.

Lemma remove_timer_idem i ts : remove_timer i (remove_timer i ts) = remove_timer i ts.
Proof.
  unfold remove_timer. induction ts as [|t ts IH]; [reflexivity|].
  rewrite (filter_cons _ t ts). case_decide as H.
  - rewrite filter_cons. rewrite decide_True by exact H. now f_equal.
  - exact IH.
Qed.

Lemma remove_if_set_idem i ts : remove_if_set i (remove_if_set i ts) = remove_if_set i ts.
Proof. destruct i; [apply remove_timer_idem | reflexivity]. Qed.

Lemma handleSubmit_rejected_shown w f maximum e :
  button_disabled (pf w) = false -> form (pf w) = Some f ->
  validate (pf w) = Some (Validation false maximum) ->
  addToCartTextError (pf w) = Some e ->
  let msg := quantity_error_message (pf w) maximum in
  let i := next_timer w in
  exec handleSubmit w =
    set_pf (set_timeout (Some i)
             (set_liveRegion msg
               (set_error (Some (show_error msg e))
                 (set_container (disable <$> addToCartButtonContainer (pf w)) (pf w)))))
      (set_timers (Pos.succ (Pos.succ i))
         (remove_if_set (timeout (pf w)) (timers w)
            ++ [Timer i (now w + 10000) HideError; Timer (Pos.succ i) (now w + 1000) EnableButton]) w).
Proof.
  intros Hd Hf Hv He msg i. subst msg i.
  rewrite <- (remove_if_set_idem (timeout (pf w))).
  unfold exec, handleSubmit, bind, get, quantity_error_message.
  open_world w. subst. rewrite Hv.
  destruct tmo; cbn; rewrite Hd; cbn.
  all: rewrite <- ?app_assoc; reflexivity.
Qed.

Lemma handleSubmit_rejected_silent w f maximum :
  button_disabled (pf w) = false -> form (pf w) = Some f ->
  validate (pf w) = Some (Validation false maximum) ->
  addToCartTextError (pf w) = None ->
  exec handleSubmit w =
    set_pf (set_container (disable <$> addToCartButtonContainer (pf w)) (pf w))
      (set_timers (Pos.succ (next_timer w))
         (remove_if_set (timeout (pf w)) (timers w)
            ++ [Timer (next_timer w) (now w + 1000) EnableButton]) w).
Proof.
  intros Hd Hf Hv He.
  unfold exec, handleSubmit, bind, get.
  open_world w. subst. rewrite Hv.
  destruct tmo; cbn; rewrite Hd; cbn.
  all: reflexivity.
Qed.

Lemma show_error_node text e : childNodes (show_error text e) !! error_node e = Some text.
Proof.
  unfold show_error, error_node. cbn [childNodes].
  destruct (childNodes e !! 2%nat) eqn:H.
  - apply lookup_lt_Some in H.
    replace (Nat.min 2 (List.length (childNodes e))) with 2%nat by lia.
    apply list_lookup_insert_eq. exact H.
  - apply lookup_ge_None in H.
    replace (Nat.min 2 (List.length (childNodes e))) with (List.length (childNodes e)) by lia.
    rewrite lookup_app_r by lia. now rewrite Nat.sub_diag.
Qed.

(** C1, amended: when the quantity widget rejects, [handleSubmit] sends no
    request; when the ref [addToCartTextError] is there, the message with
    the maximum in place of ['{{ maximum }}'] is shown in the text node of
    the error element and in the live region; when the ref is missing,
    nothing is shown. *)
Theorem handleSubmit_rejected_message w f maximum :
  button_disabled (pf w) = false -> form (pf w) = Some f ->
  validate (pf w) = Some (Validation false maximum) ->
  let w' := exec handleSubmit w in
  let errorMessage := quantity_error_message (pf w) maximum in
  (inflight w' = inflight w /\ next_request w' = next_request w) /\
  match addToCartTextError (pf w) with
  | Some e =>
      exists e', addToCartTextError (pf w') = Some e' /\ hidden e' = false /\
                 childNodes e' !! error_node e = Some errorMessage /\
                 liveRegion (pf w') = errorMessage
  | None => addToCartTextError (pf w') = None /\ liveRegion (pf w') = liveRegion (pf w)
  end.
Proof.
  intros Hd Hf Hv w' msg. subst w'.
  destruct (addToCartTextError (pf w)) as [e|] eqn:He.
  - rewrite (handleSubmit_rejected_shown w f maximum e Hd Hf Hv He).
    cbn. split; [split; reflexivity|].
    exists (show_error msg e). repeat split. apply show_error_node.
  - rewrite (handleSubmit_rejected_silent w f maximum Hd Hf Hv He).
    cbn. repeat split; assumption.
Qed.



(** C4, amended: when the quantity widget rejects, [handleSubmit] disables
    the control.  When the ref [addToCartTextError] is there it schedules
    exactly two timers, one that enables the control again after 1000 ms and
    one that hides the error and clears the live region after 10000 ms, and
    firing either leaves the other pending.  When the ref is missing it
    schedules the timer that enables the control, and no other. *)
Theorem handleSubmit_rejected_two_timers w f maximum :
  button_disabled (pf w) = false -> form (pf w) = Some f ->
  validate (pf w) = Some (Validation false maximum) ->
  let w' := exec handleSubmit w in
  (disabled <$> addToCartButtonContainer (pf w') =
     (fun _ => true) <$> addToCartButtonContainer (pf w)) /\
  match addToCartTextError (pf w) with
  | Some _ =>
      let hide := Timer (next_timer w) (now w + 10000) HideError in
      let reenable := Timer (Pos.succ (next_timer w)) (now w + 1000) EnableButton in
      timers w' = remove_if_set (timeout (pf w)) (timers w) ++ [hide; reenable] /\
      (hide ∈ timers (fire reenable w') /\ reenable ∈ timers (fire hide w')) /\
      (disabled <$> addToCartButtonContainer (pf (fire reenable w')) =
         (fun _ => false) <$> addToCartButtonContainer (pf w)) /\
      (error_visible (pf (fire hide w')) = false /\
       liveRegion (pf (fire hide w')) = EmptyString)
  | None =>
      let reenable := Timer (next_timer w) (now w + 1000) EnableButton in
      timers w' = remove_if_set (timeout (pf w)) (timers w) ++ [reenable] /\
      (disabled <$> addToCartButtonContainer (pf (fire reenable w')) =
         (fun _ => false) <$> addToCartButtonContainer (pf w)) /\
      (addToCartTextError (pf w') = None /\ liveRegion (pf w') = liveRegion (pf w))
  end.
Proof.
  intros Hd Hf Hv w'. subst w'.
  destruct (addToCartTextError (pf w)) as [e|] eqn:He.
  - rewrite (handleSubmit_rejected_shown w f maximum e Hd Hf Hv He).
    set (hide := Timer (next_timer w) (now w + 10000) HideError).
    set (reenable := Timer (Pos.succ (next_timer w)) (now w + 1000) EnableButton).
    cbv zeta.
    split; [|split; [|split; [|split]]].
    + cbn. now destruct (addToCartButtonContainer (pf w)).
    + reflexivity.
    + rewrite !fire_timers. cbn [timer_callback timer_id reenable hide]. rewrite !app_nil_r.
      split; apply elem_of_remove_timer; cbn [timers set_pf set_timers timer_id].
      * split; [subst hide; cbn; lia|]. apply elem_of_app. right. apply elem_of_cons. now left.
      * split; [subst reenable; cbn; lia|]. apply elem_of_app. right. apply elem_of_cons. right.
        apply elem_of_cons. now left.
    + unfold fire, exec. cbn. now destruct (addToCartButtonContainer (pf w)).
    + unfold fire, exec, error_visible. cbn. split; reflexivity.
  - rewrite (handleSubmit_rejected_silent w f maximum Hd Hf Hv He).
    cbv zeta.
    split; [|split; [|split; [|split]]].
    + cbn. now destruct (addToCartButtonContainer (pf w)).
    + reflexivity.
    + unfold fire, exec. cbn. now destruct (addToCartButtonContainer (pf w)).
    + cbn. exact He.
    + reflexivity.
Qed.

(** C5: after an answer to the POST without a truthy [status], the error
    element does not show. *)
Theorem cart_add_success_hides_error n formData formId response w :
  inflight w !! n = Some (CartAdd formData formId) ->
  JS.truthy_value (status response) = false ->
  error_visible (pf (cart_add_settles n (Json response) w)) = false.
Proof.
  intros Hn Hs. unfold cart_add_settles. rewrite Hn.
  unfold cart_add_settled, cart_add_then, exec, try_catch, error_visible. rewrite Hs.
  unfold bind, get, fetchAndUpdateCartQuantity. open_world w.
  destruct err as [e|]; cbn;
    destruct (truthy_string (first_value "id" formData)); cbn;
    destruct cont; cbn; unfold bind, get; cbn;
    destruct (truthy_string (first_value "id" ctl)); cbn; reflexivity.
Qed.

(** C6: a variant update for this product disables the add-to-cart button
    and hides the accelerated checkout when the variant is [null] or not
    available, and enables the one and shows the other when it is
    available. *)
Theorem onVariantUpdate_controls e w :
  is_Some (newProduct e) \/ event_productId e = dataset (pf w) !! "productId" ->
  let w' := exec (onVariantUpdate e) w in
  disabled <$> addToCartButtonContainer (pf w') =
    (fun _ => unavailable (resource e)) <$> addToCartButtonContainer (pf w) /\
  acceleratedCheckoutButtonContainer (pf w') =
    (fun _ => unavailable (resource e)) <$> acceleratedCheckoutButtonContainer (pf w).
Proof.
  intros Hgate w'. subst w'. unfold exec, onVariantUpdate, bind, get.
  assert (Hp : match newProduct e with
               | Some _ => True
               | None => bool_decide (event_productId e = dataset (pf w) !! "productId") = true
               end).
  { destruct Hgate as [[x Hx]|Heq].
    - now rewrite Hx.
    - destruct (newProduct e); [exact I|]. now apply bool_decide_eq_true. }
  open_world w.
  destruct (newProduct e) as [newId|]; cbn; [|rewrite Hp; cbn].
  all: destruct cont as [c|], acc as [a|]; cbn.
  all: unfold fetchAndUpdateCartQuantity, fetch, on_container, modify_pf, modify, bind, get, ret.
  all: destruct (newAddToCartButton e); cbn.
  all: destruct (resource e) as [[vid [|] src]|]; cbn.
  all: repeat match goal with
              | |- context [truthy_string ?s] => destruct (truthy_string s); cbn
              end.
  all: split; reflexivity.
Qed.

Lemma find_item_state value l w : (find_item value l w).2 = w.
Proof.
  induction l as [|i l IH]; cbn; [reflexivity|].
  destruct (variant_id i); cbn; [|reflexivity].
  destruct (String.eqb _ _); [reflexivity | exact IH].
Qed.

Lemma find_item_found value l w :
  Forall (fun i => is_Some (variant_id i)) l ->
  find_item value l w =
    (Normal (List.find (fun i => bool_decide (JS.toString <$> variant_id i = Some value)) l), w).
Proof.
  induction 1 as [|i l [v Hv] _ IH]; cbn; [reflexivity|].
  rewrite Hv. cbn.
  destruct (String.eqb_spec (JS.toString v) value) as [->|Hne].
  - rewrite bool_decide_eq_true_2 by reflexivity. reflexivity.
  - rewrite bool_decide_eq_false_2 by congruence. exact IH.
Qed.

Lemma cart_quantity_body_display r w :
  let w' := (cart_quantity_body r w).2 in
  addToCartTextError (pf w') = addToCartTextError (pf w) /\
  liveRegion (pf w') = liveRegion (pf w) /\
  dispatched w' = dispatched w /\
  console w' = console w.
Proof.
  destruct r as [| |[[l|]]]; cbn; try (repeat split; reflexivity).
  unfold bind, get. cbn.
  destruct (first_value "id" (controls (pf w))) as [value|]; cbn; [|repeat split; reflexivity].
  pose proof (find_item_state value l w) as Hst.
  destruct (find_item value l w) as [[item|error] w1]; cbn in *; subst w1;
    [|repeat split; reflexivity].
  unfold updateQuantityLabel, modify_pf, modify, bind, ret; cbn.
  destruct (quantitySelector (pf w)) as [q|]; [destruct (setCartQuantity q)|];
    repeat split; reflexivity.
Qed.

(** C8: before its first [await], [#fetchAndUpdateCartQuantity] answers [0]
    without a request when the variant input is missing or empty and
    otherwise sends the GET of [/cart.js]; it does not throw.  Once the
    request has settled it never throws, it touches neither the error
    element nor the live region and dispatches nothing, it answers [0]
    whenever its body throws (a network error, a parse error and a cart
    without [items] all make it throw), and on a well-formed cart it
    answers the quantity of the first item of the current variant, or [0].
    The same holds of the function as a whole. *)
Theorem fetchAndUpdateCartQuantity_best_effort :
  (forall w,
      fetchAndUpdateCartQuantity w =
        match truthy_string (first_value "id" (controls (pf w))) with
        | None => (Normal (Some 0), w)
        | Some _ =>
            (Normal None,
             set_inflight (S (next_request w)) (<[next_request w := CartGet]> (inflight w)) w)
        end) /\
  (forall r w, exists cartQty w',
      fetchAndUpdateCartQuantity_settled r w = (Normal cartQty, w') /\
      (addToCartTextError (pf w') = addToCartTextError (pf w) /\
       liveRegion (pf w') = liveRegion (pf w) /\
       dispatched w' = dispatched w) /\
      ((exists error w1, cart_quantity_body r w = (Throw error, w1)) -> cartQty = 0) /\
      (forall l value,
          r = Json (Cart (Some l)) ->
          Forall (fun i => is_Some (variant_id i)) l ->
          first_value "id" (controls (pf w)) = Some value ->
          cartQty = quantity_in_cart value l)) /\
  (forall w, exists e1 e2 e3 w1 w2 w3,
      cart_quantity_body NetworkError w = (Throw e1, w1) /\
      cart_quantity_body ParseError w = (Throw e2, w2) /\
      cart_quantity_body (Json (Cart None)) w = (Throw e3, w3)) /\
  (forall r w, exists cartQty w',
      fetchAndUpdateCartQuantity_resolved r w = (Normal cartQty, w') /\
      (addToCartTextError (pf w') = addToCartTextError (pf w) /\
       liveRegion (pf w') = liveRegion (pf w) /\
       dispatched w' = dispatched w) /\
      (truthy_string (first_value "id" (controls (pf w))) = None ->
       cartQty = 0 /\ w' = w) /\
      (r = NetworkError \/ r = ParseError \/ r = Json (Cart None) -> cartQty = 0) /\
      (forall l value,
          r = Json (Cart (Some l)) ->
          Forall (fun i => is_Some (variant_id i)) l ->
          truthy_string (first_value "id" (controls (pf w))) = Some value ->
          cartQty = quantity_in_cart value l)).
Proof.
  assert (Hstart : forall w,
      fetchAndUpdateCartQuantity w =
        match truthy_string (first_value "id" (controls (pf w))) with
        | None => (Normal (Some 0), w)
        | Some _ =>
            (Normal None,
             set_inflight (S (next_request w)) (<[next_request w := CartGet]> (inflight w)) w)
        end).
  { intros w. unfold fetchAndUpdateCartQuantity, bind, get, fetch, modify. cbn.
    now destruct (truthy_string _). }
  assert (Hsettled : forall r w, exists cartQty w',
      fetchAndUpdateCartQuantity_settled r w = (Normal cartQty, w') /\
      (addToCartTextError (pf w') = addToCartTextError (pf w) /\
       liveRegion (pf w') = liveRegion (pf w) /\
       dispatched w' = dispatched w) /\
      ((exists error w1, cart_quantity_body r w = (Throw error, w1)) -> cartQty = 0) /\
      (forall l value,
          r = Json (Cart (Some l)) ->
          Forall (fun i => is_Some (variant_id i)) l ->
          first_value "id" (controls (pf w)) = Some value ->
          cartQty = quantity_in_cart value l)).
  { intros r w.
    pose proof (cart_quantity_body_display r w) as Hd. cbn in Hd.
    unfold fetchAndUpdateCartQuantity_settled, try_catch.
    destruct (cart_quantity_body r w) as [[n|error] w1] eqn:Hbody; cbn in Hd.
    + exists n, w1. split; [reflexivity|]. split; [tauto|]. split.
      * intros (error & w2 & H). discriminate.
      * intros l value -> Hall Hv. cbn in Hbody. unfold bind, get in Hbody. cbn in Hbody.
        rewrite Hv in Hbody. rewrite (find_item_found value l w Hall) in Hbody.
        cbn in Hbody. unfold quantity_in_cart.
        destruct (List.find _ l); inversion Hbody; reflexivity.
    + eexists 0, _. split; [reflexivity|]. cbn. split; [tauto|]. split; [reflexivity|].
      intros l value -> Hall Hv. cbn in Hbody. unfold bind, get in Hbody. cbn in Hbody.
      rewrite Hv in Hbody. rewrite (find_item_found value l w Hall) in Hbody.
      cbn in Hbody. discriminate. }
  split; [exact Hstart|]. split; [exact Hsettled|]. split.
  - intros w. cbn. repeat eexists.
  - intros r w. unfold fetchAndUpdateCartQuantity_resolved, bind. rewrite Hstart.
    destruct (truthy_string (first_value "id" (controls (pf w)))) as [value|] eqn:Hid.
    + set (w1 := set_inflight _ _ w).
      destruct (Hsettled r w1) as (cartQty & w' & Heq & Hdisplay & Hthrow & Hfound).
      exists cartQty, w'. split; [exact Heq|]. split; [exact Hdisplay|].
      split; [discriminate|]. split.
      * intros Hr. apply Hthrow.
        destruct Hr as [->|[->| ->]]; cbn; repeat eexists.
      * intros l value' Hr Hall [= <-]. apply (Hfound l value Hr Hall).
        change (controls (pf w1)) with (controls (pf w)).
        destruct (first_value "id" (controls (pf w))) as [[|c v]|]; cbn in Hid;
          try discriminate. now injection Hid as <-.
    + exists 0, w. split; [reflexivity|]. split; [tauto|]. split; [tauto|].
      split; [reflexivity|]. intros l value _ _ [=].
Qed.

Lemma cart_add_error_signal formData formId response w e :
  JS.truthy_value (status response) = true ->
  addToCartTextError (pf w) = Some e ->
  plain_integer (first_value "quantity" formData) = true ->
  plain_integer (dataset (pf w) !! "quantityDefault") = true ->
  let w' := exec (cart_add_settled formData formId (Json response)) w in
  dispatched w' =
    dispatched w ++
      [CartErrorEvent (default EmptyString (truthy_string formId)) (message response)
                      (response_description response) (response_errors response);
       CartAddEvent (id (pf w))
         (AddDetail true "product-form-component" (nominal_quantity formData (pf w))
                    (dataset (pf w) !! "productId") None)] /\
  inflight w' = inflight w /\
  timers w' = timers w ++ [Timer (next_timer w) (now w + 10000) HideError] /\
  liveRegion (pf w') = message response.
Proof.
  intros Hs He _ _ w'. subst w'.
  unfold exec, cart_add_settled, cart_add_then, try_catch. rewrite Hs.
  unfold bind, get, dispatchEvent, modify_pf, modify. open_world w. subst.
  cbn. rewrite <- app_assoc. repeat split.
Qed.

Lemma cart_add_error_never_success formData formId response w :
  JS.truthy_value (status response) = true ->
  let w' := exec (cart_add_settled formData formId (Json response)) w in
  inflight w' = inflight w /\
  pending ClearLiveRegion w' = pending ClearLiveRegion w /\
  console w' = console w /\
  forall sourceId detail,
    CartAddEvent sourceId detail ∈ dispatched w' ->
    CartAddEvent sourceId detail ∈ dispatched w \/ didError detail = true.
Proof.
  intros Hs w'. subst w'.
  unfold exec, cart_add_settled, cart_add_then, try_catch. rewrite Hs.
  unfold bind, get, dispatchEvent, modify_pf, modify, pending. open_world w.
  destruct err as [e|]; cbn.
  - repeat split.
    + rewrite filter_app. cbn. apply app_nil_r.
    + intros sourceId detail Hin. rewrite <- app_assoc in Hin.
      apply elem_of_app in Hin as [Hin|Hin]; [now left|].
      apply elem_of_cons in Hin as [Hin|Hin]; [discriminate|].
      apply elem_of_cons in Hin as [Hin|Hin]; [|now apply not_elem_of_nil in Hin].
      inversion Hin. now right.
  - repeat split.
    intros sourceId detail Hin.
    apply elem_of_app in Hin as [Hin|Hin]; [now left|].
    apply elem_of_cons in Hin as [Hin|Hin]; [discriminate|now apply not_elem_of_nil in Hin].
Qed.
End ProductFormFacts.

(** *** The example page *)

Section Scenarios.

(** C1, as stated, fails: on the example page without the optional ref
    [addToCartTextError] the widget rejects 5 against a maximum of 3, and
    the live region does not get the message. *)
Lemma rejected_without_error_element_shows_nothing :
  let w := without_error_element example_page in
  button_disabled (pf w) = false /\
  validate (pf w) = Some (Validation false 3) /\
  quantity_error_message (pf w) 3 = "You can only add 3 of this item" /\
  liveRegion (pf (exec handleSubmit w)) = EmptyString /\
  liveRegion (pf (exec handleSubmit w)) <> quantity_error_message (pf w) 3.
Proof.
  cbv zeta. repeat split; try (vm_compute; reflexivity).
  vm_compute. discriminate.
Qed.

Lemma handleSubmit_rejected_message_witness :
  inflight (exec handleSubmit example_page) = inflight example_page /\
  exists e',
    addToCartTextError (pf (exec handleSubmit example_page)) = Some e' /\
    hidden e' = false /\
    childNodes e' !! 2%nat = Some "You can only add 3 of this item" /\
    liveRegion (pf (exec handleSubmit example_page)) = "You can only add 3 of this item".
Proof.
  pose proof (handleSubmit_rejected_message example_page
                (FormElement (Some "form-1") true) 3
                eq_refl eq_refl eq_refl) as [[Hreq _] Hshown].
  split; [exact Hreq | exact Hshown].
Defined.

(** C2: the code sends no add signal when the ref [addToCartTextError] is
    missing.  The answer [{status: 422, message: 'Sold out'}] reaches the
    page without that ref: the only event dispatched is the
    [CartErrorEvent]. *)
Lemma server_error_without_error_element_sends_no_add_event :
  dispatched (run (without_error_element (accepting example_page))
                  [Submit; CartAddSettles 0 (Json sold_out)]) =
    [CartErrorEvent "form-1" "Sold out" EmptyString EmptyString].
Proof. vm_compute. reflexivity. Qed.

(** C3: two submissions whose answers arrive after the second one leave two
    error timers pending.  The first answer comes at once, the second after
    3000 ms: the message of the second answer shows, and the timer of the
    first hides it at 10000 ms, 3000 ms before its own timer is due. *)
Lemma two_submissions_leave_two_error_timers :
  let w := run (accepting example_page)
               [Submit; Submit; CartAddSettles 0 (Json sold_out); Elapse 3000;
                CartAddSettles 1 (Json too_many)] in
  pending HideError w = [Timer 1 10000 HideError; Timer 2 13000 HideError] /\
  timeout (pf w) = Some 2%positive /\
  (liveRegion (pf w) = "Only 3 left" /\ error_visible (pf w) = true) /\
  (now (elapse 7000 w) = 10000 /\
   error_visible (pf (elapse 7000 w)) = false /\
   liveRegion (pf (elapse 7000 w)) = EmptyString).
Proof. vm_compute. repeat split. Qed.

(** C4, as stated, fails: without the ref [addToCartTextError] a rejected
    submission schedules one timer only, the one that enables the button. *)
Lemma rejected_without_error_element_schedules_one_timer :
  let w := without_error_element example_page in
  button_disabled (pf w) = false /\
  validate (pf w) = Some (Validation false 3) /\
  timers (exec handleSubmit w) = [Timer 1 1000 EnableButton].
Proof. vm_compute. repeat split. Qed.

Lemma handleSubmit_rejected_two_timers_witness :
  (timers (exec handleSubmit example_page) =
     [Timer 1 10000 HideError; Timer 2 1000 EnableButton] /\
   button_disabled (pf (exec handleSubmit example_page)) = true) /\
  timers (exec handleSubmit (without_error_element example_page)) =
    [Timer 1 1000 EnableButton].
Proof.
  pose proof (handleSubmit_rejected_two_timers example_page
                (FormElement (Some "form-1") true) 3
                eq_refl eq_refl eq_refl) as (Hdis & Hts & _).
  pose proof (handleSubmit_rejected_two_timers (without_error_element example_page)
                (FormElement (Some "form-1") true) 3
                eq_refl eq_refl eq_refl) as (_ & Hone & _).
  split; [split|].
  - exact Hts.
  - unfold button_disabled.
    destruct (addToCartButtonContainer (pf (exec handleSubmit example_page))) as [c|];
      [injection Hdis as Hdis; exact Hdis | discriminate Hdis].
  - exact Hone.
Defined.

(** The example page after a server error has been shown and a second
    submission is in flight. *)
Lemma cart_add_success_hides_error_witness :
  let w := run (accepting example_page)
               [Submit; CartAddSettles 0 (Json sold_out); Submit] in
  error_visible (pf w) = true /\
  error_visible (pf (cart_add_settles 1 (Json added_response) w)) = false.
Proof.
  cbv zeta. split; [vm_compute; reflexivity|].
  apply (cart_add_success_hides_error 1
           [("id", "42"); ("quantity", "5"); ("sections", "cart-drawer")]
           (Some "form-1") added_response).
  - vm_compute. reflexivity.
  - reflexivity.
Defined.

Lemma onVariantUpdate_controls_witness :
  let sold := VariantUpdate (Some (Variant 43 false None)) None (Some "77") None in
  let w := exec (onVariantUpdate sold) example_page in
  button_disabled (pf w) = true /\
  acceleratedCheckoutButtonContainer (pf w) = Some true.
Proof.
  cbv zeta.
  pose proof (onVariantUpdate_controls
                (VariantUpdate (Some (Variant 43 false None)) None (Some "77") None)
                example_page (or_intror eq_refl)) as [Hbtn Hacc].
  split; [|exact Hacc].
  unfold button_disabled.
  destruct (addToCartButtonContainer (pf (exec _ example_page))) as [c|];
    [injection Hbtn as Hbtn; exact Hbtn | discriminate Hbtn].
Defined.



Lemma fetchAndUpdateCartQuantity_best_effort_witness :
  exists w',
    fetchAndUpdateCartQuantity_resolved
      (Json (Cart (Some [CartItem (Some 41) 2; CartItem (Some 42) 7; CartItem (Some 42) 9])))
      example_page = (Normal 7, w').
Proof.
  destruct (proj2 (proj2 (proj2 fetchAndUpdateCartQuantity_best_effort))
              (Json (Cart (Some [CartItem (Some 41) 2; CartItem (Some 42) 7;
                                 CartItem (Some 42) 9])))
              example_page) as (cartQty & w' & Heq & _ & _ & _ & Hfound).
  exists w'. rewrite Heq. f_equal. f_equal.
  apply (Hfound _ "42" eq_refl).
  - repeat constructor; eexists; reflexivity.
  - reflexivity.
Defined.

Lemma animate_path_geometry_witness :
  let p := Bezier.animate_path (Bezier.Rect 0 0 40 40) (Bezier.Rect 100 500 200 50)
                               (Bezier.Rect 900 10 30 30) in
  Bezier.frame_requested
    (Bezier.animate_frame p 1599 (Bezier.Flight (Some 1000%Q) (Bezier.startPoint p) 1 1 true))
    = true /\
  Bezier.frame_requested
    (Bezier.animate_frame p 1600 (Bezier.Flight (Some 1000%Q) (Bezier.startPoint p) 1 1 true))
    = false.
Proof.
  cbv zeta.
  pose proof (animate_path_geometry (Bezier.Rect 0 0 40 40) (Bezier.Rect 100 500 200 50)
                                    (Bezier.Rect 900 10 30 30))
    as (_ & _ & _ & _ & _ & _ & Hframe & _).
  split.
  - refine (Hframe 1000%Q 1599%Q (Bezier.Flight (Some 1000%Q) _ _ _ _) eq_refl _).
    discriminate.
  - refine (Hframe 1000%Q 1600%Q (Bezier.Flight (Some 1000%Q) _ _ _ _) eq_refl _).
    discriminate.
Defined.

End Scenarios.

(** ** More of the components *)

(** *** How a submission proceeds *)

Section SubmitPaths.

Lemma handleSubmit_disabled w :
  button_disabled (pf w) = true ->
  handleSubmit w =
    (Normal tt, set_timers (next_timer w) (remove_if_set (timeout (pf w)) (timers w)) w).
Proof.
  intros Hd. unfold handleSubmit, bind, get. open_world w.
  destruct tmo; cbn; rewrite Hd; reflexivity.
Qed.

Lemma handleSubmit_missing_form w :
  button_disabled (pf w) = false -> form (pf w) = None ->
  handleSubmit w =
    (Throw "Product form element missing",
     set_timers (next_timer w) (remove_if_set (timeout (pf w)) (timers w)) w).
Proof.
  intros Hd Hf. unfold handleSubmit, bind, get. open_world w. subst.
  destruct tmo; cbn; rewrite Hd; reflexivity.
Qed.

Lemma handleSubmit_accepted w f :
  button_disabled (pf w) = false -> form (pf w) = Some f ->
  (forall maximum, validate (pf w) <> Some (Validation false maximum)) ->
  handleSubmit w =
    (Normal tt,
     set_inflight (S (next_request w))
       (<[next_request w :=
            CartAdd (append_sections (cartItemsComponents w) [] (controls (pf w))) (form_id f)]>
          (inflight w))
       (set_timers (next_timer w) (remove_if_set (timeout (pf w)) (timers w)) w)).
Proof.
  intros Hd Hf Hv. unfold handleSubmit, bind, get.
  destruct (validate (pf w)) as [[[|] m]|] eqn:Hval; [| now destruct (Hv m) |].
  all: open_world w; subst; rewrite ?Hval.
  all: destruct tmo; cbn; rewrite Hd, ?Hval; reflexivity.
Qed.


Lemma append_sections_from components : forall ids formData,
  append_sections components ids formData =
    formData ++
    ((fun k => ("sections", JS.join "," (ids ++ omap truthy_string (take (S k) components))))
       <$> seq 0 (List.length components)).
Proof.
  induction components as [|c rest IH]; intros ids formData; cbn [append_sections].
  - cbn. now rewrite app_nil_r.
  - rewrite IH. cbn [List.length seq fmap list_fmap]. rewrite <- app_assoc. f_equal.
    cbn [app]. f_equal.
    + cbn. destruct (truthy_string c); cbn; [reflexivity | now rewrite app_nil_r].
    + rewrite <- seq_shift, <- list_fmap_compose. apply list_fmap_ext.
      intros _ k _. cbn. destruct (truthy_string c); cbn; [|reflexivity].
      now rewrite <- app_assoc.
Qed.

Lemma first_value_app_other name formData extra :
  Forall (fun e => e.1 <> name) extra ->
  first_value name (formData ++ extra) = first_value name formData.
Proof.
  intros Hextra. induction formData as [|[n v] fd IH]; cbn [app first_value].
  - induction Hextra as [|[n v] extra Hn _ IH]; cbn [first_value]; [reflexivity|].
    cbn in Hn. destruct (String.eqb_spec n name); [congruence | exact IH].
  - destruct (String.eqb n name); [reflexivity | exact IH].
Qed.

(** The loop over the [cart-items-component] elements leaves the fields of
    the form in front, appends one [sections] entry per component (not one
    in all), changes the first value of no other name, and ends with the
    entry that joins every section identifier. *)
Theorem append_sections_entries components formData :
  append_sections components [] formData = formData ++ sections_entries components /\
  List.length (sections_entries components) = List.length components /\
  (forall name, name <> "sections" ->
     first_value name (append_sections components [] formData) = first_value name formData) /\
  (components <> [] ->
   last (append_sections components [] formData) =
     Some ("sections", JS.join "," (omap truthy_string components))).
Proof.
  assert (Heq : append_sections components [] formData = formData ++ sections_entries components).
  { rewrite append_sections_from. reflexivity. }
  split; [exact Heq|]. split; [|split].
  - unfold sections_entries. now rewrite length_fmap, length_seq.
  - intros name Hname. rewrite Heq. apply first_value_app_other.
    unfold sections_entries. apply Forall_fmap, Forall_forall. intros k _. cbn. congruence.
  - intros Hne. rewrite Heq. unfold sections_entries.
    destruct (List.length components) as [|n] eqn:Hlen.
    { destruct components; [congruence | discriminate]. }
    rewrite seq_S, fmap_app, app_assoc. cbn. rewrite last_snoc.
    rewrite <- Hlen, firstn_all. reflexivity.
Qed.

End SubmitPaths.

(** *** The answer to the POST and the cart events *)

Section AnswerFacts.

Lemma cart_add_success_effects formData formId response w ident :
  JS.truthy_value (status response) = false ->
  truthy_string (first_value "id" formData) = Some ident ->
  let w' := exec (cart_add_settled formData formId (Json response)) w in
  dispatched w' =
    dispatched w ++
      [CartAddEvent ident
         (AddDetail false "product-form-component" (nominal_quantity formData (pf w))
                    (dataset (pf w) !! "productId") (response_sections response))] /\
  console w' = console w /\
  error_visible (pf w') = false /\
  match addToCartButtonContainer (pf w) with
  | Some c =>
      liveRegion (pf w') = default (translations_added w) (truthy_string (addedText c)) /\
      timers w' = timers w ++ [Timer (next_timer w) (now w + 5000) ClearLiveRegion]
  | None => liveRegion (pf w') = liveRegion (pf w) /\ timers w' = timers w
  end /\
  inflight w' =
    match truthy_string (first_value "id" (controls (pf w))) with
    | Some _ => <[next_request w := CartGet]> (inflight w)
    | None => inflight w
    end.
Proof.
  intros Hs Hid w'. subst w'.
  unfold exec, cart_add_settled, cart_add_then, try_catch, error_visible. rewrite Hs, Hid.
  unfold bind, get, fetchAndUpdateCartQuantity, dispatchEvent, modify_pf, modify, fetch.
  open_world w.
  destruct err as [e|], cont as [c|]; cbn;
    destruct (truthy_string (first_value "id" ctl)); cbn; repeat split.
Qed.

(** An answer without a truthy [status] for a form whose data has no [id]:
    ['Form ID is required'] goes to the console; no event is dispatched, no
    request sent, no timer scheduled and nothing announced; the error
    element is hidden all the same. *)
Lemma cart_add_success_without_id formData formId response w :
  JS.truthy_value (status response) = false ->
  truthy_string (first_value "id" formData) = None ->
  let w' := exec (cart_add_settled formData formId (Json response)) w in
  console w' = console w ++ ["Form ID is required"] /\
  dispatched w' = dispatched w /\
  inflight w' = inflight w /\
  timers w' = timers w /\
  liveRegion (pf w') = liveRegion (pf w) /\
  error_visible (pf w') = false.
Proof.
  intros Hs Hid w'. subst w'.
  unfold exec, cart_add_settled, cart_add_then, try_catch, error_visible. rewrite Hs, Hid.
  unfold bind, get, console_error, modify_pf, modify. open_world w.
  destruct err as [e|]; cbn; repeat split.
Qed.

(** A POST that fails on the network or whose answer is not JSON writes one
    line to the console and changes nothing else: the user is shown
    nothing. *)
Lemma cart_add_failure_logged formData formId w :
  exec (cart_add_settled formData formId NetworkError) w =
    set_console (console w ++ ["TypeError: Failed to fetch"]) w /\
  exec (cart_add_settled formData formId ParseError) w =
    set_console (console w ++ ["SyntaxError: Unexpected token"]) w.
Proof. split; reflexivity. Qed.

Lemma nominal_quantity_cases formData p :
  nominal_quantity formData p =
    match JS.Number_nullable (first_value "quantity" formData) with
    | JS.Num z => if z =? 0 then JS.Number_optional (dataset p !! "quantityDefault") else JS.Num z
    | JS.NaN => JS.Number_optional (dataset p !! "quantityDefault")
    end.
Proof.
  unfold nominal_quantity, JS.or_else.
  destruct (JS.Number_nullable _) as [|z]; cbn; [reflexivity|]. now destruct (z =? 0).
Qed.

Lemma onCartUpdate_own sourceId source w :
  sourceId = Some (id (pf w)) \/ source = Some "product-form-component" ->
  onCartUpdate sourceId source w = (Normal tt, w).
Proof.
  intros H. unfold onCartUpdate, bind, get. cbn.
  destruct H as [->| ->].
  - rewrite bool_decide_eq_true_2 by reflexivity. reflexivity.
  - rewrite (bool_decide_eq_true_2 (Some "product-form-component" = _)) by reflexivity.
    rewrite orb_true_r. reflexivity.
Qed.

(** A cart update from elsewhere starts a cart fetch when the variant input
    holds a value, and does nothing when it is empty or missing. *)
Lemma onCartUpdate_foreign sourceId source w :
  sourceId <> Some (id (pf w)) -> source <> Some "product-form-component" ->
  exec (onCartUpdate sourceId source) w =
    match truthy_string (first_value "id" (controls (pf w))) with
    | Some _ => set_inflight (S (next_request w)) (<[next_request w := CartGet]> (inflight w)) w
    | None => w
    end.
Proof.
  intros H1 H2. unfold exec, onCartUpdate, bind, get. cbn.
  rewrite !bool_decide_eq_false_2 by assumption. cbn.
  unfold fetchAndUpdateCartQuantity, bind, get, fetch, modify. cbn.
  now destruct (truthy_string _).
Qed.

(** Every [CartAddEvent] the component dispatches, in the error branch and
    in the success branch, is one its own [#onCartUpdate] ignores. *)
Lemma own_add_events_ignored formData formId r w sourceId detail :
  CartAddEvent sourceId detail ∈ dispatched (exec (cart_add_settled formData formId r) w) ->
  CartAddEvent sourceId detail ∈ dispatched w \/
  forall w2, onCartUpdate (Some sourceId) (Some (source detail)) w2 = (Normal tt, w2).
Proof.
  unfold exec, cart_add_settled, cart_add_then, try_catch.
  destruct r as [| |response]; cbn; try tauto.
  unfold bind, get, fetchAndUpdateCartQuantity, dispatchEvent, console_error, modify_pf,
    modify, fetch.
  open_world w.
  destruct (JS.truthy_value (status response)); cbn.
  - destruct err as [e|]; cbn; rewrite <- ?app_assoc; cbn;
      rewrite elem_of_app, !elem_of_cons, elem_of_nil;
      intros [H|H]; try tauto; right; intros w2; apply onCartUpdate_own;
      destruct H as [H|H]; try discriminate; try tauto;
      destruct H as [H|H]; try tauto; inversion H; now right.
  - destruct err as [e|]; cbn;
      destruct (truthy_string (first_value "id" formData)); cbn; try tauto;
      destruct cont as [c|]; cbn;
      destruct (truthy_string (first_value "id" ctl)); cbn;
      rewrite elem_of_app, !elem_of_cons, elem_of_nil;
      intros [H|H]; try tauto; right; intros w2; apply onCartUpdate_own;
      destruct H as [H|H]; try tauto; inversion H; now right.
Qed.

(** A variant update for another product, without a new product, changes
    nothing. *)
Lemma onVariantUpdate_other_product e w :
  newProduct e = None -> event_productId e <> dataset (pf w) !! "productId" ->
  onVariantUpdate e w = (Normal tt, w).
Proof.
  intros Hn Hp. unfold onVariantUpdate, bind, get. cbn. rewrite Hn. cbn.
  rewrite bool_decide_eq_false_2 by assumption. reflexivity.
Qed.

Lemma first_value_set_value name v entries :
  first_value name (set_value name v entries) = (fun _ => v) <$> first_value name entries.
Proof.
  induction entries as [|[n old] rest IH]; cbn [set_value first_value]; [reflexivity|].
  destruct (String.eqb n name) eqn:E; cbn [first_value]; rewrite E; [reflexivity | exact IH].
Qed.

Lemma first_value_set_value_other name name' v entries :
  name <> name' ->
  first_value name' (set_value name v entries) = first_value name' entries.
Proof.
  intros Hne. induction entries as [|[n old] rest IH]; cbn [set_value first_value]; [reflexivity|].
  destruct (String.eqb_spec n name) as [->|E]; cbn [first_value].
  - destruct (String.eqb_spec name name'); [congruence | reflexivity].
  - destruct (String.eqb n name'); [reflexivity | exact IH].
Qed.

Lemma toString_not_empty z : JS.toString z <> EmptyString.
Proof.
  unfold JS.toString, NilZero.string_of_int.
  destruct (Z.to_int z) as [d|d]; [|discriminate].
  unfold NilZero.string_of_uint. destruct d; discriminate.
Qed.

(** A processed variant update writes the id of the variant, or the empty
    string, into the variant input and the id of a new product into the
    dataset.  With neither a button nor an accelerated checkout it returns
    before the cart fetch; otherwise it fetches the cart when the input
    exists and the variant is not [null]. *)
Lemma onVariantUpdate_form e w :
  is_Some (newProduct e) \/ event_productId e = dataset (pf w) !! "productId" ->
  let w' := exec (onVariantUpdate e) w in
  controls (pf w') = set_value "id" (variant_id_value e) (controls (pf w)) /\
  dataset (pf w') =
    match newProduct e with
    | Some newId => <["productId" := newId]> (dataset (pf w))
    | None => dataset (pf w)
    end /\
  (addToCartButtonContainer (pf w) = None ->
   acceleratedCheckoutButtonContainer (pf w) = None ->
   inflight w' = inflight w /\ timers w' = timers w) /\
  (is_Some (addToCartButtonContainer (pf w)) \/
   is_Some (acceleratedCheckoutButtonContainer (pf w)) ->
   inflight w' =
     match first_value "id" (controls (pf w)), resource e with
     | Some _, Some _ => <[next_request w := CartGet]> (inflight w)
     | _, _ => inflight w
     end).
Proof.
  intros Hgate w'. subst w'. unfold exec, onVariantUpdate, bind, get, variant_id_value.
  assert (Hp : match newProduct e with
               | Some _ => True
               | None => bool_decide (event_productId e = dataset (pf w) !! "productId") = true
               end).
  { destruct Hgate as [[x Hx]|Heq].
    - now rewrite Hx.
    - destruct (newProduct e); [exact I|]. now apply bool_decide_eq_true. }
  open_world w.
  destruct (newProduct e) as [newId|]; cbn; [|rewrite Hp; cbn].
  all: destruct cont as [c|], acc as [a|]; cbn.
  all: unfold fetchAndUpdateCartQuantity, fetch, on_container, modify_pf, modify, bind, get, ret.
  all: destruct (newAddToCartButton e); cbn.
  all: destruct (resource e) as [[vid av src]|]; cbn.
  all: try (pose proof (toString_not_empty vid) as Hne;
            destruct (JS.toString vid) as [|ch rest]; [congruence|]; cbn).
  all: try (destruct (truthy_string src); cbn).
  all: rewrite ?first_value_set_value.
  all: destruct (first_value "id" ctl) as [old|]; cbn.
  all: repeat split; try (intros; discriminate); try (intros [[? ?]|[? ?]]; discriminate).
Qed.

End AnswerFacts.

(** *** The flight of a click and the error node *)

Section ClickFacts.

Lemma handleClick_flights in_modal w :
  flights (exec (handleClick in_modal) w) =
    flights w ++ option_list (flight_of_click in_modal w).
Proof.
  unfold flight_of_click, valid_click, exec, handleClick, bind, get. cbn.
  destruct (form (pf w)) as [f|]; [|cbn; now rewrite app_nil_r].
  destruct (checkValidity f); [|cbn; now rewrite app_nil_r]. cbn.
  destruct (validate (pf w)) as [[[|] m]|]; cbn; try now rewrite app_nil_r.
  all: unfold animateAddToCart, animateFlyToCart, bind, get; cbn.
  all: open_world w.
  all: destruct cont as [[dis add mk at_ ads [i|] [j|]]|]; cbn.
  all: try (destruct (bool_decide (ads !! "addToCartAnimation" = Some "true")); cbn).
  all: destruct in_modal; cbn; rewrite ?app_nil_r; try reflexivity.
  all: destruct wicon; cbn; rewrite ?app_nil_r; try reflexivity.
  all: destruct (truthy_string (ads !! "productVariantMedia")); cbn; rewrite ?app_nil_r;
    reflexivity.
Qed.

Lemma show_error_count text e :
  List.length (childNodes (show_error text e)) =
    if (3 <=? List.length (childNodes e))%nat
    then List.length (childNodes e)
    else S (List.length (childNodes e)).
Proof.
  unfold show_error. cbn [childNodes].
  destruct (childNodes e !! 2%nat) eqn:H.
  - apply lookup_lt_Some in H. rewrite length_insert.
    destruct (Nat.leb_spec 3 (List.length (childNodes e))); [reflexivity | lia].
  - apply lookup_ge_None in H. rewrite length_app.
    change (List.length [text]) with 1%nat.
    destruct (Nat.leb_spec 3 (List.length (childNodes e))); lia.
Qed.

Lemma show_error_reuse text text' e :
  (2 <= List.length (childNodes e))%nat ->
  show_error text' (show_error text e) = show_error text' e.
Proof.
  intros Hlen. unfold show_error. cbn [childNodes aria_live]. f_equal.
  destruct (childNodes e !! 2%nat) eqn:H.
  - pose proof (lookup_lt_Some _ _ _ H) as Hlt.
    rewrite list_lookup_insert_eq by exact Hlt. now rewrite list_insert_insert_eq.
  - apply lookup_ge_None in H.
    assert (List.length (childNodes e) = 2%nat) as Hl by lia.
    rewrite lookup_app_r by lia. rewrite Hl. cbn.
    destruct (childNodes e) as [|a [|b [|c l]]]; cbn in Hl; try discriminate. reflexivity.
Qed.

Lemma show_error_piles_up text text' e :
  (List.length (childNodes e) < 2)%nat ->
  childNodes (show_error text' (show_error text e)) = childNodes e ++ [text; text'].
Proof.
  intros Hlen. unfold show_error. cbn [childNodes].
  destruct (childNodes e) as [|a [|b l]]; cbn in *; try lia; reflexivity.
Qed.

(** A processed variant update with a preview image puts its source, with
    ['&width=100'] appended, on the button; a valid click outside a
    quick-add modal, with the cart icon on the page and the data flag
    ['true'], then sends exactly that image to the cart. *)
Theorem variant_media_flies e w c v src :
  is_Some (newProduct e) \/ event_productId e = dataset (pf w) !! "productId" ->
  addToCartButtonContainer (pf w) = Some c ->
  resource e = Some v ->
  truthy_string (preview_image_src v) = Some src ->
  let w' := exec (onVariantUpdate e) w in
  (exists c', addToCartButtonContainer (pf w') = Some c' /\
              atc_dataset c' !! "productVariantMedia" = Some (src +:+ "&width=100") /\
              atc_dataset c' !! "addToCartAnimation" = atc_dataset c !! "addToCartAnimation") /\
  (valid_click (pf w') = true -> cartIcon w = true ->
   atc_dataset c !! "addToCartAnimation" = Some "true" ->
   flights (exec (handleClick false) w') = flights w ++ [src +:+ "&width=100"]).
Proof.
  intros Hgate Hc Hr Hsrc w'.
  assert (Hw' : exists c',
            addToCartButtonContainer (pf w') = Some c' /\
            atc_dataset c' = <["productVariantMedia" := src +:+ "&width=100"]> (atc_dataset c) /\
            cartIcon w' = cartIcon w /\ flights w' = flights w).
  { subst w'. unfold exec, onVariantUpdate, bind, get.
    assert (Hp : match newProduct e with
                 | Some _ => True
                 | None => bool_decide (event_productId e = dataset (pf w) !! "productId") = true
                 end).
    { destruct Hgate as [[x Hx]|Heq].
      - now rewrite Hx.
      - destruct (newProduct e); [exact I|]. now apply bool_decide_eq_true. }
    rewrite Hr. cbn [mbind option_bind]. rewrite Hsrc.
    open_world w. subst cont.
    destruct (newProduct e) as [newId|]; cbn; [|rewrite Hp; cbn].
    all: unfold fetchAndUpdateCartQuantity, fetch, on_container, modify_pf, modify, bind, get, ret.
    all: destruct acc as [a|]; cbn.
    all: destruct (newAddToCartButton e); cbn.
    all: destruct (truthy_string (first_value "id" _)); cbn.
    all: destruct (available v); cbn.
    all: eexists; repeat split. }
  destruct Hw' as (c' & Hc' & Hds & Hicon & Hfl).
  assert (Hne : truthy_string (Some (src +:+ "&width=100")) = Some (src +:+ "&width=100")).
  { destruct src; reflexivity. }
  split.
  - exists c'. split; [exact Hc'|]. rewrite Hds. split.
    + apply lookup_insert_eq.
    + apply lookup_insert_ne. discriminate.
  - intros Hv Hi Hflag. rewrite handleClick_flights, Hfl. f_equal.
    unfold flight_of_click. rewrite Hv, Hicon, Hi, Hc'. cbn.
    rewrite Hds. rewrite lookup_insert_ne by discriminate.
    rewrite bool_decide_eq_true_2 by exact Hflag.
    rewrite lookup_insert_eq. now rewrite Hne.
Qed.

End ClickFacts.

(** *** What the passing of time does *)

Section Timelines.

Lemma run_timers_invariant (P : world -> Prop) until :
  (forall t w, t ∈ timers w -> P w -> P (fire t w)) ->
  forall fuel w, P w -> P (run_timers fuel until w).
Proof.
  intros Hfire. induction fuel as [|fuel IH]; intros w HP; cbn; [exact HP|].
  destruct (earliest (timers w)) as [t|] eqn:He; [|exact HP].
  destruct (due t <=? until); [|exact HP].
  apply IH, Hfire; [|exact HP]. now apply earliest_Some in He.
Qed.

Lemma elapse_invariant (P : world -> Prop) ms w :
  (forall t w, t ∈ timers w -> P w -> P (fire t w)) ->
  (forall t w, P w -> P (set_now t w)) ->
  P w -> P (elapse ms w).
Proof.
  intros Hfire Hnow HP. unfold elapse. apply Hnow. now apply run_timers_invariant.
Qed.

Lemma fire_error_element t w :
  timer_callback t <> HideError ->
  addToCartTextError (pf (fire t w)) = addToCartTextError (pf w).
Proof.
  destruct t as [i d cb]. unfold fire, exec. cbn. intros Hcb. open_world w.
  destruct cb; cbn; try congruence; destruct cont; reflexivity.
Qed.

Lemma fire_pending_other t w cb :
  cb <> Cleanup ->
  forall t', t' ∈ timers (fire t w) -> timer_callback t' = cb -> t' ∈ timers w.
Proof.
  intros Hcb t'. rewrite fire_timers. intros [Hin|Hin]%elem_of_app Ht'.
  - now apply elem_of_remove_timer in Hin.
  - destruct (timer_callback t); try now apply not_elem_of_nil in Hin.
    apply elem_of_cons in Hin as [->|Hin]; [cbn in Ht'; congruence|].
    now apply not_elem_of_nil in Hin.
Qed.

(** While no error timer is pending, the passing of time leaves the error
    element as it is. *)
Lemma elapse_error_element ms w :
  pending HideError w = [] ->
  addToCartTextError (pf (elapse ms w)) = addToCartTextError (pf w) /\
  pending HideError (elapse ms w) = [].
Proof.
  intros Hnone.
  assert (Hp : forall w', pending HideError w' = [] <->
                          forall t, t ∈ timers w' -> timer_callback t <> HideError).
  { intros w'. unfold pending. split.
    - intros H t Hin Hcb.
      assert (t ∈ filter (fun t => timer_callback t = HideError) (timers w')) as Hf
          by now apply list_elem_of_filter.
      rewrite H in Hf. now apply not_elem_of_nil in Hf.
    - intros H. apply elem_of_nil_inv. intros t [Hcb Hin]%list_elem_of_filter.
      now apply (H t). }
  apply (elapse_invariant
           (fun w' => addToCartTextError (pf w') = addToCartTextError (pf w) /\
                      pending HideError w' = [])).
  - intros t w' Hin [He Hn]. split.
    + rewrite fire_error_element; [exact He|]. now apply (proj1 (Hp w') Hn).
    + apply Hp. intros t' Hin' Hcb.
      apply (proj1 (Hp w') Hn t'); [|exact Hcb].
      now apply (fire_pending_other t w' HideError).
  - intros t w' H. exact H.
  - split; [reflexivity | exact Hnone].
Qed.

(** A submission while the button is disabled sends nothing and cancels the
    pending error timer: when every pending error timer is the one
    [#timeout] holds, the error element then stays as it is however much
    time passes. *)
Theorem submit_while_disabled_keeps_error w :
  button_disabled (pf w) = true ->
  (forall t, t ∈ timers w -> timer_callback t = HideError -> timeout (pf w) = Some (timer_id t)) ->
  forall ms,
    addToCartTextError (pf (elapse ms (exec handleSubmit w))) = addToCartTextError (pf w) /\
    inflight (elapse ms (exec handleSubmit w)) = inflight w.
Proof.
  intros Hd Htracked ms.
  assert (Hw : exec handleSubmit w =
               set_timers (next_timer w) (remove_if_set (timeout (pf w)) (timers w)) w).
  { unfold exec. now rewrite handleSubmit_disabled. }
  split.
  - destruct (elapse_error_element ms (exec handleSubmit w)) as [He _].
    + rewrite Hw. unfold pending. cbn. apply elem_of_nil_inv.
      intros t [Hcb Hin]%list_elem_of_filter.
      apply elem_of_remove_if_set in Hin as [Hid Hin].
      now rewrite (Htracked t Hin Hcb) in Hid.
    + rewrite He, Hw. reflexivity.
  - apply (elapse_invariant (fun w' => inflight w' = inflight w)).
    + intros [i d cb] w' _ H. rewrite <- H. unfold fire, exec. open_world w'.
      destruct cb; cbn; unfold hideError, bind, get; cbn; try destruct err; reflexivity.
    + intros t w' H. exact H.
    + now rewrite Hw.
Qed.

Lemma run_timers_fire fuel until w t :
  earliest (timers w) = Some t -> due t <= until ->
  run_timers (S fuel) until w = run_timers fuel until (fire t w).
Proof. intros He Hd. cbn. rewrite He. now rewrite (proj2 (Z.leb_le _ _) Hd). Qed.

Lemma run_timers_wait fuel until w t :
  earliest (timers w) = Some t -> until < due t -> run_timers fuel until w = w.
Proof.
  intros He Hd. destruct fuel; cbn; [reflexivity|]. rewrite He.
  now rewrite (proj2 (Z.leb_gt _ _) Hd).
Qed.

Lemma run_timers_idle fuel until w : timers w = [] -> run_timers fuel until w = w.
Proof. intros H. destruct fuel; cbn; [reflexivity|]. now rewrite H. Qed.

(** On a page without pending timers, after a rejected submission and with
    nothing else happening: the button is disabled for the first 1000 ms
    and enabled afterwards, the error element shows and the live region
    holds the message for the first 10000 ms, then both are cleared; no
    request is sent. *)
Theorem rejected_submission_timeline w f maximum e c :
  quiet w ->
  addToCartButtonContainer (pf w) = Some c -> disabled c = false ->
  form (pf w) = Some f ->
  validate (pf w) = Some (Validation false maximum) ->
  addToCartTextError (pf w) = Some e ->
  forall ms, 0 <= ms ->
    let w' := elapse ms (exec handleSubmit w) in
    button_disabled (pf w') = bool_decide (ms < 1000) /\
    error_visible (pf w') = bool_decide (ms < 10000) /\
    liveRegion (pf w') =
      (if bool_decide (ms < 10000) then quantity_error_message (pf w) maximum
       else EmptyString) /\
    inflight w' = inflight w.
Proof.
  intros Hq Hc Hdis Hf Hv He ms Hms w'. subst w'.
  assert (Hd : button_disabled (pf w) = false) by (unfold button_disabled; now rewrite Hc).
  rewrite (handleSubmit_rejected_shown w f maximum e Hd Hf Hv He).
  unfold quiet in Hq. rewrite Hq, Hc.
  assert (Hrem : remove_if_set (timeout (pf w)) [] = []) by now destruct (timeout (pf w)).
  rewrite Hrem. cbn [app fmap option_fmap option_map].
  set (hide := Timer (next_timer w) (now w + 10000) HideError).
  set (enable_ := Timer (Pos.succ (next_timer w)) (now w + 1000) EnableButton).
  set (msg := quantity_error_message (pf w) maximum).
  set (w1 := set_pf _ _).
  assert (Hts : timers w1 = [hide; enable_]) by reflexivity.
  assert (Hnow : now w1 = now w) by reflexivity.
  assert (He1 : earliest (timers w1) = Some enable_).
  { rewrite Hts. cbn. now rewrite (proj2 (Z.ltb_lt (now w + 1000) (now w + 10000))) by lia. }
  unfold elapse. rewrite Hts, Hnow.
  change (budget [hide; enable_]) with 2%nat.
  destruct (Z.lt_ge_cases ms 1000) as [H1|H1].
  - rewrite (run_timers_wait _ _ _ _ He1) by (cbn; lia).
    rewrite !bool_decide_eq_true_2 by lia.
    unfold button_disabled, error_visible. cbn. repeat split.
  - rewrite (run_timers_fire _ _ _ _ He1) by (cbn; lia).
    set (w2 := fire enable_ w1).
    assert (Hts2 : timers w2 = [hide]).
    { unfold w2. rewrite fire_timers, Hts. cbn [timer_callback enable_ timer_id].
      rewrite app_nil_r. unfold remove_timer.
      rewrite filter_cons, decide_True by (cbn; lia).
      rewrite filter_cons, decide_False by (cbn; tauto). reflexivity. }
    assert (He2 : earliest (timers w2) = Some hide) by now rewrite Hts2.
    rewrite (bool_decide_eq_false_2 (ms < 1000)) by lia.
    destruct (Z.lt_ge_cases ms 10000) as [H2|H2].
    + rewrite (run_timers_wait _ _ _ _ He2) by (cbn; lia).
      rewrite !bool_decide_eq_true_2 by lia.
      unfold w2, fire, exec, button_disabled, error_visible. cbn. repeat split.
    + rewrite (run_timers_fire _ _ _ _ He2) by (cbn; lia).
      rewrite !bool_decide_eq_false_2 by lia.
      unfold w2, fire, exec, button_disabled, error_visible. cbn. repeat split.
Qed.

(** On a page without pending timers, after a successful answer and with
    nothing else happening, the live region holds the added text (the text
    of the button's element, or the translation) for the first 5000 ms and
    is empty afterwards. *)
Theorem added_announcement_timeline formData formId response w ident c :
  quiet w ->
  addToCartButtonContainer (pf w) = Some c ->
  JS.truthy_value (status response) = false ->
  truthy_string (first_value "id" formData) = Some ident ->
  forall ms, 0 <= ms ->
    liveRegion (pf (elapse ms (exec (cart_add_settled formData formId (Json response)) w))) =
      if bool_decide (ms < 5000)
      then default (translations_added w) (truthy_string (addedText c))
      else EmptyString.
Proof.
  intros Hq Hc Hs Hid ms Hms.
  set (w1 := exec (cart_add_settled formData formId (Json response)) w).
  destruct (cart_add_success_effects formData formId response w ident Hs Hid)
    as (_ & _ & _ & Hlive & _).
  fold w1 in Hlive. rewrite Hc in Hlive. destruct Hlive as [Hlive Hts].
  unfold quiet in Hq. rewrite Hq in Hts. cbn [app] in Hts.
  set (clear := Timer (next_timer w) (now w + 5000) ClearLiveRegion) in *.
  assert (Hnow : now w1 = now w).
  { unfold w1, exec, cart_add_settled, cart_add_then, try_catch. rewrite Hs, Hid.
    unfold bind, get, fetchAndUpdateCartQuantity, dispatchEvent, modify_pf, modify, fetch.
    open_world w. subst.
    destruct err as [e|]; cbn; destruct (truthy_string (first_value "id" ctl)); reflexivity. }
  assert (He1 : earliest (timers w1) = Some clear) by now rewrite Hts.
  unfold elapse. rewrite Hts, Hnow. change (budget [clear]) with 1%nat.
  change (liveRegion (pf (set_now ?t ?w'))) with (liveRegion (pf w')).
  destruct (Z.lt_ge_cases ms 5000) as [H1|H1].
  - rewrite (run_timers_wait _ _ _ _ He1) by (cbn; lia).
    rewrite bool_decide_eq_true_2 by lia. exact Hlive.
  - rewrite (run_timers_fire _ _ _ _ He1) by (cbn; lia).
    rewrite bool_decide_eq_false_2 by lia. reflexivity.
Qed.

Lemma fire_has_added_other t w :
  ~ is_animation t -> has_added (fire t w) = has_added w.
Proof.
  intros Hn. rewrite fire_has_added. unfold is_animation in Hn.
  destruct (timer_callback t); tauto.
Qed.

(** While no timer of [animateAddToCart] is pending, the passing of time
    leaves the class as it is. *)
Lemma elapse_has_added ms w :
  (forall t, t ∈ timers w -> ~ is_animation t) ->
  has_added (elapse ms w) = has_added w.
Proof.
  intros Hnone.
  apply (elapse_invariant
           (fun w' => has_added w' = has_added w /\
                      forall t, t ∈ timers w' -> ~ is_animation t)).
  - intros t w' Hin [Ha Hn]. split.
    + rewrite fire_has_added_other; [exact Ha | now apply Hn].
    + intros t'. rewrite fire_timers. intros [Hin'|Hin']%elem_of_app.
      * apply elem_of_remove_timer in Hin' as [_ Hin']. now apply Hn.
      * specialize (Hn t Hin). unfold is_animation in Hn.
        destruct (timer_callback t); try tauto; now apply not_elem_of_nil in Hin'.
  - intros t w' H. exact H.
  - split; [reflexivity | exact Hnone].
Qed.

(** [disconnectedCallback] clears both timers of the button: afterwards no
    timer of [animateAddToCart] is pending, and the class ['atc-added']
    stays as it is however much time passes. *)
Theorem disconnected_button_keeps_class w :
  animation_timers_tracked w ->
  forall ms,
    has_added (elapse ms (exec disconnectedCallback w)) = has_added w /\
    pending AnimationEnd (exec disconnectedCallback w) = [] /\
    pending Cleanup (exec disconnectedCallback w) = [].
Proof.
  intros Htracked ms.
  assert (Hw : exists ts,
             exec disconnectedCallback w = set_timers (next_timer w) ts w /\
             forall t, t ∈ ts -> t ∈ timers w /\ ~ is_animation t).
  { unfold exec, disconnectedCallback, bind, get. cbn.
    destruct (addToCartButtonContainer (pf w)) as [c|] eqn:Hc.
    - exists (remove_if_set (cleanupTimeout c) (remove_if_set (animationTimeout c) (timers w))).
      split.
      + destruct (animationTimeout c), (cleanupTimeout c); destruct w; reflexivity.
      + intros t Hin.
        apply elem_of_remove_if_set in Hin as [Hcl Hin].
        apply elem_of_remove_if_set in Hin as [Han Hin].
        split; [exact Hin|]. intros Ha.
        destruct (Htracked t Hin Ha) as (c' & Hc' & Hid).
        rewrite Hc in Hc'. injection Hc' as <-. destruct Hid; congruence.
    - exists (timers w). split; [now destruct w|].
      intros t Hin. split; [exact Hin|]. intros Ha.
      destruct (Htracked t Hin Ha) as (c' & Hc' & _). congruence. }
  destruct Hw as (ts & Hw & Hts). rewrite Hw.
  split; [|split].
  - rewrite elapse_has_added; [reflexivity|].
    intros t Hin. now apply Hts.
  - unfold pending. cbn. apply elem_of_nil_inv.
    intros t [Hcb Hin]%list_elem_of_filter. apply (proj2 (Hts t Hin)). now left.
  - unfold pending. cbn. apply elem_of_nil_inv.
    intros t [Hcb Hin]%list_elem_of_filter. apply (proj2 (Hts t Hin)). now right.
Qed.

End Timelines.

(** *** What every history keeps *)

Ltac new_timer :=
  right; split; [unfold is_animation; cbn; intros [?|?]; discriminate | cbn; lia].

Ltac timers_step H :=
  repeat (apply elem_of_app in H; destruct H as [H|H]);
  [ left; exact H
  | repeat (apply elem_of_cons in H; destruct H as [->|H]; [new_timer|]);
    now apply not_elem_of_nil in H ].

Ltac untouched_same := split; [cbn; lia|split; [reflexivity|intros ? ?; now left]].

Section Invariant.

Lemma animation_untouched_refl w : animation_untouched w w.
Proof. repeat split; [lia | tauto]. Qed.

Lemma well_formed_untouched w w' :
  timers_well_formed w -> animation_untouched w w' -> timers_well_formed w'.
Proof.
  intros (Hfresh & Hanim & Hclean) (Hnext & Hcont & Hts).
  assert (Hold : forall t, t ∈ timers w' -> is_animation t -> t ∈ timers w).
  { intros t Hin Ha. destruct (Hts t Hin) as [H|[H _]]; tauto. }
  assert (Hc : forall c, addToCartButtonContainer (pf w) = Some c ->
                 exists c', addToCartButtonContainer (pf w') = Some c' /\
                            animationTimeout c' = animationTimeout c /\
                            cleanupTimeout c' = cleanupTimeout c).
  { intros c Hcw. rewrite Hcw in Hcont.
    destruct (addToCartButtonContainer (pf w')) as [c'|]; [|discriminate].
    injection Hcont as H1 H2. now exists c'. }
  split; [|split].
  - intros t Hin. destruct (Hts t Hin) as [H|[_ H]]; [|lia].
    specialize (Hfresh t H). lia.
  - intros t Hin Hcb.
    assert (Hin0 : t ∈ timers w) by (apply Hold; [exact Hin | now left]).
    destruct (Hanim t Hin0 Hcb) as [(c & Hcw & Hid) Hno]. split.
    + destruct (Hc c Hcw) as (c' & Hc' & Han & _). exists c'. split; [exact Hc'|congruence].
    + intros t' Hin' Hcb'. apply (Hno t'); [|exact Hcb'].
      apply Hold; [exact Hin' | now right].
  - intros t Hin Hcb.
    assert (Hin0 : t ∈ timers w) by (apply Hold; [exact Hin | now right]).
    destruct (Hclean t Hin0 Hcb) as (c & Hcw & Hid).
    destruct (Hc c Hcw) as (c' & Hc' & _ & Hcl). exists c'. split; [exact Hc'|congruence].
Qed.

Lemma elem_of_remove_if_set_old t i ts : t ∈ remove_if_set i ts -> t ∈ ts.
Proof. intros H. now apply elem_of_remove_if_set in H. Qed.

Lemma handleSubmit_untouched w : animation_untouched w (exec handleSubmit w).
Proof.
  destruct (button_disabled (pf w)) eqn:Hd.
  { unfold exec. rewrite handleSubmit_disabled by exact Hd. cbn.
    split; [cbn; lia|]. split; [reflexivity|].
    intros t H. left. now apply elem_of_remove_if_set_old in H. }
  destruct (form (pf w)) as [f|] eqn:Hf.
  2:{ unfold exec. rewrite handleSubmit_missing_form by assumption. cbn.
      split; [cbn; lia|]. split; [reflexivity|].
      intros t H. left. now apply elem_of_remove_if_set_old in H. }
  destruct (validate (pf w)) as [[[|] m]|] eqn:Hv.
  2:{ destruct (addToCartTextError (pf w)) as [e|] eqn:He.
      - rewrite (handleSubmit_rejected_shown w f m e Hd Hf Hv He).
        split; [cbn; lia|]. split; [cbn; now destruct (addToCartButtonContainer (pf w))|].
        intros t H. cbn in H.
        apply elem_of_app in H as [H|H]; [left; now apply elem_of_remove_if_set_old in H|].
        apply elem_of_cons in H as [->|H]; [new_timer|].
        apply elem_of_cons in H as [->|H]; [new_timer|].
        now apply not_elem_of_nil in H.
      - rewrite (handleSubmit_rejected_silent w f m Hd Hf Hv He).
        split; [cbn; lia|]. split; [cbn; now destruct (addToCartButtonContainer (pf w))|].
        intros t H. cbn in H.
        apply elem_of_app in H as [H|H]; [left; now apply elem_of_remove_if_set_old in H|].
        apply elem_of_cons in H as [->|H]; [new_timer|].
        now apply not_elem_of_nil in H. }
  all: unfold exec; rewrite (handleSubmit_accepted w f Hd Hf) by (intros m'; congruence); cbn.
  all: split; [cbn; lia|]; (split; [reflexivity|]).
  all: intros t H; left; now apply elem_of_remove_if_set_old in H.
Qed.

Lemma cart_add_settled_untouched formData formId r w :
  animation_untouched w (exec (cart_add_settled formData formId r) w).
Proof.
  unfold exec, cart_add_settled, cart_add_then, try_catch.
  destruct r as [| |response];
    [split; [cbn; lia|split; [reflexivity|intros t H; now left]]..|].
  unfold bind, get, fetchAndUpdateCartQuantity, dispatchEvent, console_error, modify_pf,
    modify, fetch.
  open_world w.
  destruct (JS.truthy_value (status response)); cbn.
  - destruct err as [e|]; cbn; (split; [cbn; lia|split; [reflexivity|]]);
      intros t H; cbn in H; [timers_step H | now left].
  - destruct err as [e|]; cbn;
      destruct (truthy_string (first_value "id" formData)); cbn;
      try (split; [cbn; lia|split; [reflexivity|]]; intros t H; now left);
      destruct cont as [c|]; cbn;
      destruct (truthy_string (first_value "id" ctl)); cbn;
      (split; [cbn; lia|split; [reflexivity|]]);
      intros t H; cbn in H; first [timers_step H | now left].
Qed.

Lemma cart_get_settled_untouched r w :
  animation_untouched w (exec (fetchAndUpdateCartQuantity_settled r) w).
Proof.
  pose proof (find_item_state) as Hfind.
  unfold exec, fetchAndUpdateCartQuantity_settled, try_catch.
  destruct r as [| |[[l|]]]; cbn; try untouched_same.
  unfold bind, get. cbn.
  destruct (first_value "id" (controls (pf w))) as [value|]; cbn; [|untouched_same].
  specialize (Hfind value l w).
  destruct (find_item value l w) as [[item|error] w1]; cbn in *; subst w1;
    [|untouched_same].
  unfold updateQuantityLabel, modify_pf, modify, bind, ret; cbn.
  split; [cbn; lia|]. split; [|cbn; tauto].
  destruct (quantitySelector (pf w)) as [q|]; [destruct (setCartQuantity q)|]; reflexivity.
Qed.

Lemma onCartUpdate_untouched sourceId source w :
  animation_untouched w (exec (onCartUpdate sourceId source) w).
Proof.
  unfold exec, onCartUpdate, bind, get. cbn.
  destruct (_ || _); [apply animation_untouched_refl|].
  unfold fetchAndUpdateCartQuantity, bind, get, fetch, modify. cbn.
  destruct (truthy_string _); untouched_same.
Qed.

Lemma onVariantSelected_untouched w : animation_untouched w (exec onVariantSelected w).
Proof.
  unfold exec, onVariantSelected, on_container, modify_pf, modify. cbn.
  split; [cbn; lia|]. split; [|cbn; tauto]. now destruct (addToCartButtonContainer (pf w)).
Qed.

Lemma onVariantUpdate_untouched e w : animation_untouched w (exec (onVariantUpdate e) w).
Proof.
  unfold exec, onVariantUpdate, bind, get.
  open_world w.
  destruct (newProduct e) as [newId|]; cbn;
    [|destruct (bool_decide (event_productId e = ds !! "productId")); cbn;
      [|apply animation_untouched_refl]].
  all: destruct cont as [c|], acc as [a|]; cbn.
  all: unfold fetchAndUpdateCartQuantity, fetch, on_container, modify_pf, modify, bind, get, ret.
  all: destruct (newAddToCartButton e); cbn.
  all: destruct (resource e) as [[vid [|] src]|]; cbn.
  all: repeat match goal with
              | |- context [truthy_string ?s] => destruct (truthy_string s); cbn
              end.
  all: (split; [cbn; lia|split; [reflexivity|]]); intros t H; now left.
Qed.

Lemma fire_untouched t w :
  timer_callback t <> AnimationEnd -> t ∈ timers w ->
  animation_untouched w (fire t w).
Proof.
  intros Hcb Hin. split; [|split].
  - rewrite fire_next_timer. destruct (timer_callback t); lia.
  - destruct t as [i d cb]. unfold fire, exec. cbn in Hcb. open_world w.
    destruct cb; cbn; try congruence; unfold hideError, bind, get; cbn;
      try destruct err; cbn; now destruct cont.
  - intros t'. rewrite fire_timers.
    destruct (timer_callback t); try congruence; rewrite app_nil_r;
      intros H; left; now apply elem_of_remove_timer in H.
Qed.

Lemma handleClick_container in_modal w c :
  valid_click (pf w) = true ->
  addToCartButtonContainer (pf w) = Some c ->
  exists c',
    addToCartButtonContainer (pf (exec (handleClick in_modal) w)) = Some c' /\
    animationTimeout c' = Some (next_timer w) /\
    cleanupTimeout c' = cleanupTimeout c.
Proof.
  intros Hv Hc.
  unfold valid_click in Hv. unfold exec, handleClick, bind, get. cbn.
  destruct (form (pf w)) as [f|]; [|discriminate].
  destruct (checkValidity f); [|discriminate]. cbn in *.
  destruct (validate (pf w)) as [[[|] m]|]; cbn in Hv; try discriminate.
  all: unfold animateAddToCart, animateFlyToCart, bind, get; cbn.
  all: open_world w; subst cont; cbn.
  all: destruct c as [dis add mk at_ ads [i|] [j|]]; cbn.
  all: destruct (bool_decide (ads !! "addToCartAnimation" = Some "true")), in_modal; cbn.
  all: try (destruct wicon, (truthy_string (ads !! "productVariantMedia")); cbn).
  all: eexists; repeat split.
Qed.

Lemma handleClick_without_container in_modal w :
  addToCartButtonContainer (pf w) = None -> exec (handleClick in_modal) w = w.
Proof.
  intros Hc. unfold exec, handleClick, bind, get. cbn.
  destruct (form (pf w)) as [f|]; [|reflexivity].
  destruct (checkValidity f); [|reflexivity]. cbn.
  destruct (validate (pf w)) as [[[|] m]|]; cbn; try reflexivity.
  all: unfold animateAddToCart, bind, get; cbn; rewrite Hc; cbn; rewrite Hc; reflexivity.
Qed.

Lemma handleClick_well_formed in_modal w :
  timers_well_formed w -> timers_well_formed (exec (handleClick in_modal) w).
Proof.
  intros Hwf.
  destruct (valid_click (pf w)) eqn:Hv; [|now rewrite handleClick_invalid].
  destruct (addToCartButtonContainer (pf w)) as [c|] eqn:Hc;
    [|now rewrite handleClick_without_container].
  destruct Hwf as (Hfresh & Hanim & Hclean).
  destruct (handleClick_valid in_modal w c Hv Hc) as (_ & _ & Hnext & Hts).
  destruct (handleClick_container in_modal w c Hv Hc) as (c' & Hc' & Han & Hcl).
  set (w1 := exec (handleClick in_modal) w) in *.
  assert (Hin : forall t, t ∈ timers w1 ->
                  (t ∈ timers w /\ ~ is_animation t) \/ t = animation_timer (now w) (next_timer w)).
  { intros t. rewrite Hts. intros [H|H]%elem_of_app.
    - left. apply elem_of_remove_if_set in H as [Hn2 H].
      apply elem_of_remove_if_set in H as [Hn1 H]. split; [exact H|].
      intros [Ha|Ha].
      + destruct (Hanim t H Ha) as [(c0 & Hc0 & Hid) _]. congruence.
      + destruct (Hclean t H Ha) as (c0 & Hc0 & Hid). congruence.
    - right. apply elem_of_cons in H as [->|H]; [reflexivity|now apply not_elem_of_nil in H]. }
  split; [|split].
  - intros t Ht. rewrite Hnext. destruct (Hin t Ht) as [[H _]| ->].
    + specialize (Hfresh t H). lia.
    + cbn. lia.
  - intros t Ht Hcb. destruct (Hin t Ht) as [[_ H]| ->]; [destruct H; now left|]. split.
    + exists c'. split; [exact Hc' | exact Han].
    + intros t' Ht' Hcb'. destruct (Hin t' Ht') as [[_ H]| ->]; [destruct H; now right|].
      discriminate.
  - intros t Ht Hcb. destruct (Hin t Ht) as [[_ H]| ->]; [destruct H; now right|].
    discriminate.
Qed.

Lemma fire_animationEnd_container t w c :
  timer_callback t = AnimationEnd ->
  addToCartButtonContainer (pf w) = Some c ->
  exists c',
    addToCartButtonContainer (pf (fire t w)) = Some c' /\
    animationTimeout c' = animationTimeout c /\
    cleanupTimeout c' = Some (next_timer w).
Proof.
  destruct t as [i d cb]. cbn. intros -> Hc. unfold fire, exec. open_world w. subst cont.
  cbn. eexists. repeat split.
Qed.

Lemma fire_well_formed t w :
  t ∈ timers w -> timers_well_formed w -> timers_well_formed (fire t w).
Proof.
  intros Hin Hwf.
  destruct (decide (timer_callback t = AnimationEnd)) as [Hcb|Hcb];
    [|apply (well_formed_untouched w); [exact Hwf | now apply fire_untouched]].
  destruct Hwf as (Hfresh & Hanim & Hclean).
  destruct (Hanim t Hin Hcb) as [(c & Hc & Hid) Hno].
  destruct (fire_animationEnd_container t w c Hcb Hc) as (c' & Hc' & Han & Hcl).
  assert (Hts : forall t', t' ∈ timers (fire t w) ->
                  (t' ∈ timers w /\ timer_id t' <> timer_id t) \/
                  t' = Timer (next_timer w) (Z.max (now w) (due t) + 10) Cleanup).
  { intros t'. rewrite fire_timers, Hcb. intros [H|H]%elem_of_app.
    - left. apply elem_of_remove_timer in H. tauto.
    - right. apply elem_of_cons in H as [->|H]; [reflexivity|now apply not_elem_of_nil in H]. }
  split; [|split].
  - intros t' Ht'. rewrite fire_next_timer, Hcb. destruct (Hts t' Ht') as [[H _]| ->].
    + specialize (Hfresh t' H). lia.
    + cbn. lia.
  - intros t' Ht' Hcb'. destruct (Hts t' Ht') as [[H Hne]| ->]; [|discriminate].
    destruct (Hanim t' H Hcb') as [(c0 & Hc0 & Hid0) _]. congruence.
  - intros t' Ht' Hcb'. destruct (Hts t' Ht') as [[H Hne]| ->].
    + now destruct (Hno t' H).
    + exists c'. split; [exact Hc' | exact Hcl].
Qed.

Lemma elapse_well_formed ms w : timers_well_formed w -> timers_well_formed (elapse ms w).
Proof.
  apply elapse_invariant.
  - intros t w' Hin Hwf. now apply fire_well_formed.
  - intros t w' Hwf. exact Hwf.
Qed.

Lemma quiet_well_formed w : quiet w -> timers_well_formed w.
Proof.
  unfold quiet. intros Hq.
  split; [|split]; intros t Ht; rewrite Hq in Ht; now apply not_elem_of_nil in Ht.
Qed.

Lemma step_well_formed w a : timers_well_formed w -> timers_well_formed (step w a).
Proof.
  intros Hwf. destruct a as [m| |n r|n r|e| |sourceId source0|ms]; cbn [step].
  - now apply handleClick_well_formed.
  - apply (well_formed_untouched w); [exact Hwf | apply handleSubmit_untouched].
  - unfold cart_add_settles. destruct (inflight w !! n) as [[fd fid|]|]; try exact Hwf.
    apply (well_formed_untouched (set_inflight (next_request w) (delete n (inflight w)) w));
      [exact Hwf | apply cart_add_settled_untouched].
  - unfold cart_get_settles. destruct (inflight w !! n) as [[fd fid|]|]; try exact Hwf.
    apply (well_formed_untouched (set_inflight (next_request w) (delete n (inflight w)) w));
      [exact Hwf | apply cart_get_settled_untouched].
  - apply (well_formed_untouched w); [exact Hwf | apply onVariantUpdate_untouched].
  - apply (well_formed_untouched w); [exact Hwf | apply onVariantSelected_untouched].
  - apply (well_formed_untouched w); [exact Hwf | apply onCartUpdate_untouched].
  - now apply elapse_well_formed.
Qed.

Theorem run_well_formed l : forall w,
  timers_well_formed w -> timers_well_formed (run w l).
Proof.
  unfold run. induction l as [|a l IH]; intros w Hwf; cbn; [exact Hwf|].
  apply IH. now apply step_well_formed.
Qed.

Lemma well_formed_tracked w :
  timers_well_formed w -> timers_fresh w /\ animation_timers_tracked w.
Proof.
  intros (Hfresh & Hanim & Hclean). split; [exact Hfresh|].
  intros t Hin [Ha|Ha].
  - destruct (Hanim t Hin Ha) as [(c & Hc & Hid) _]. exists c. tauto.
  - destruct (Hclean t Hin Ha) as (c & Hc & Hid). exists c. tauto.
Qed.

Lemma valid_click_added in_modal w :
  valid_click (pf w) = true ->
  is_Some (addToCartButtonContainer (pf w)) ->
  timers_fresh w -> animation_timers_tracked w ->
  forall ms, 0 <= ms ->
    has_added (elapse ms (exec (handleClick in_modal) w)) = Some (bool_decide (ms < 2010)).
Proof.
  intros Hv [c Hc] Hfresh Htracked ms Hms.
  destruct (handleClick_valid in_modal w c Hv Hc) as (Hadd & Hnow & Hnext & Hts).
  set (w1 := exec (handleClick in_modal) w) in *.
  unfold elapse.
  change (has_added (set_now ?t ?w)) with (has_added w).
  rewrite (run_timers_added (now w) (next_timer w)); [|reflexivity|].
  - f_equal. apply bool_decide_ext. rewrite Hnow.
    unfold ADD_TO_CART_TEXT_ANIMATION_DURATION. lia.
  - left. split; [exact Hadd|]. split; [unfold ADD_TO_CART_TEXT_ANIMATION_DURATION; lia|].
    split; [exact Hnext|]. rewrite Hts. split; [|split].
    + apply elem_of_app. right. apply elem_of_cons. now left.
    + intros t [Hin|Hin]%elem_of_app Ht.
      * apply elem_of_remove_if_set in Hin as [Hcl Hin].
        apply elem_of_remove_if_set in Hin as [Han Hin].
        destruct Ht as [Ht|Ht].
        -- destruct (Htracked t Hin Ht) as (c' & Hc' & Hid).
           rewrite Hc in Hc'. injection Hc' as <-. destruct Hid; congruence.
        -- specialize (Hfresh t Hin). lia.
      * apply elem_of_cons in Hin as [->|Hin]; [reflexivity|now apply not_elem_of_nil in Hin].
    + intros t [Hin|Hin]%elem_of_app.
      * apply elem_of_remove_if_set in Hin as [_ Hin].
        apply elem_of_remove_if_set in Hin as [_ Hin].
        specialize (Hfresh t Hin). lia.
      * apply elem_of_cons in Hin as [->|Hin]; [cbn; lia|now apply not_elem_of_nil in Hin].
Qed.

(** From a page without pending timers, after any sequence of events, a
    valid click puts ['atc-added'] on the button for exactly 2010 ms, when
    nothing else happens in between: an earlier click never ends the class
    of a later one. *)
Theorem click_after_any_history l in_modal w :
  quiet w ->
  let w1 := run w l in
  valid_click (pf w1) = true ->
  is_Some (addToCartButtonContainer (pf w1)) ->
  forall ms, 0 <= ms ->
    has_added (elapse ms (exec (handleClick in_modal) w1)) = Some (bool_decide (ms < 2010)).
Proof.
  intros Hq w1 Hv Hc ms Hms.
  destruct (well_formed_tracked w1) as [Hfresh Htracked].
  { apply run_well_formed. now apply quiet_well_formed. }
  now apply valid_click_added.
Qed.

End Invariant.

(** *** The frames of the flight *)

Section Flight.

Import Bezier.
Local Open Scope Q_scope.


Lemma bezierPoint_start t p0 p1 p2 p3 :
  t == 0 ->
  x (bezierPoint t p0 p1 p2 p3) == x p0 /\ y (bezierPoint t p0 p1 p2 p3) == y p0.
Proof. intros Ht. unfold bezierPoint; cbn [x y]. rewrite Ht. split; ring. Qed.

Lemma Qmin_zero e : e == 0 -> Qmin (e / 600) 1 == 0.
Proof.
  intros He. unfold Qmin.
  assert (H : e / 600 == 0) by (rewrite He; reflexivity).
  destruct (Qle_bool (e / 600) 1) eqn:E; [exact H|].
  assert (~ e / 600 <= 1) as Hn by (rewrite <- Qle_bool_iff; congruence).
  exfalso. apply Hn. rewrite H. discriminate.
Qed.

Theorem first_frame_any_path p t f :
  duration p = 600 ->
  startTime_unset (startTime f) = true ->
  let f' := animate_frame p t f in
  (x (position f') == x (startPoint p) /\ y (position f') == y (startPoint p)) /\
  scale f' == 1 /\
  frame_requested f' = true /\
  opacity f' = opacity f /\
  startTime f' = Some t.
Proof.
  intros Hd Hs f'. subst f'.
  assert (Hp : Qmin ((t - t) / 600) 1 == 0) by (apply Qmin_zero; ring).
  assert (Hle : Qle_bool 1 (Qmin ((t - t) / 600) 1) = false).
  { destruct (Qle_bool 1 _) eqn:E; [|reflexivity].
    apply Qle_bool_iff in E. rewrite Hp in E. exfalso. apply E. reflexivity. }
  unfold animate_frame. rewrite Hs, Hd, Hle. cbn [position scale frame_requested opacity startTime].
  split; [apply (bezierPoint_start _ _ _ _ _ Hp)|].
  split; [rewrite Hp; ring|]. repeat split.
Qed.


Lemma Qmin_unit e : 0 <= e -> 0 <= Qmin (e / 600) 1 <= 1.
Proof.
  intros He.
  assert (H : e == e / 600 * 600) by (field; discriminate).
  unfold Qmin. generalize dependent (e / 600). intros q H.
  destruct (Qle_bool q 1) eqn:E.
  - apply Qle_bool_iff in E. split; [lra | exact E].
  - split; discriminate.
Qed.

Theorem later_frames_any_path p t f started :
  duration p = 600 ->
  startTime f = Some started -> ~ started == 0 -> started <= t ->
  let f' := animate_frame p t f in
  (1 # 2 <= scale f' <= 1) /\
  (600 <= t - started ->
   scale f' == 1 # 2 /\ opacity f' = 0 /\ frame_requested f' = false) /\
  (t - started < 600 -> opacity f' = opacity f /\ frame_requested f' = true).
Proof.
  intros Hd Hs Hne Hle f'. subst f'.
  assert (Hun : startTime_unset (startTime f) = false).
  { rewrite Hs. cbn. destruct (Qeq_bool started 0) eqn:E; [|reflexivity].
    apply Qeq_bool_iff in E. tauto. }
  unfold animate_frame. rewrite Hun, Hd, Hs. cbn [default from_option Datatypes.id].
  rewrite Qmin_reaches_one.
  pose proof (Qmin_unit (t - started)) as Hu.
  assert (0 <= t - started) as H0 by lra. specialize (Hu H0).
  split; [|split].
  - destruct (Qle_bool 600 (t - started)); cbn [scale]; lra.
  - intros H. rewrite (proj2 (Qle_bool_iff _ _) H). cbn [scale opacity frame_requested].
    split; [|split; reflexivity]. rewrite (Qmin_one _ H). reflexivity.
  - intros H. destruct (Qle_bool 600 (t - started)) eqn:E.
    + apply Qle_bool_iff in E. lra.
    + split; reflexivity.
Qed.

(** A convex combination of four numbers lies above any number below them. *)
Lemma bernstein_lower t m a b c d :
  0 <= t <= 1 -> m <= a -> m <= b -> m <= c -> m <= d -> m <= bernstein t a b c d.
Proof.
  intros [Ht0 Ht1] Ha Hb Hc Hd.
  assert (H1 : 0 <= 1 - t) by lra.
  assert (Hw0 : 0 <= (1 - t) ^ 3).
  { change ((1 - t) ^ 3) with ((1 - t) * ((1 - t) * (1 - t))).
    repeat apply Qmult_le_0_compat; assumption. }
  assert (Hw1 : 0 <= 3 * (1 - t) ^ 2 * t).
  { change ((1 - t) ^ 2) with ((1 - t) * (1 - t)).
    repeat apply Qmult_le_0_compat; try assumption; discriminate. }
  assert (Hw2 : 0 <= 3 * (1 - t) * t ^ 2).
  { change (t ^ 2) with (t * t).
    repeat apply Qmult_le_0_compat; try assumption; discriminate. }
  assert (Hw3 : 0 <= t ^ 3).
  { change (t ^ 3) with (t * (t * t)). repeat apply Qmult_le_0_compat; assumption. }
  assert (Hsum : bernstein t a b c d - m ==
                 (1 - t) ^ 3 * (a - m) + 3 * (1 - t) ^ 2 * t * (b - m)
                 + 3 * (1 - t) * t ^ 2 * (c - m) + t ^ 3 * (d - m)).
  { unfold bernstein. ring. }
  assert (0 <= (1 - t) ^ 3 * (a - m)) by (apply Qmult_le_0_compat; [assumption|lra]).
  assert (0 <= 3 * (1 - t) ^ 2 * t * (b - m)) by (apply Qmult_le_0_compat; [assumption|lra]).
  assert (0 <= 3 * (1 - t) * t ^ 2 * (c - m)) by (apply Qmult_le_0_compat; [assumption|lra]).
  assert (0 <= t ^ 3 * (d - m)) by (apply Qmult_le_0_compat; [assumption|lra]).
  lra.
Qed.

Lemma bernstein_upper t m a b c d :
  0 <= t <= 1 -> a <= m -> b <= m -> c <= m -> d <= m -> bernstein t a b c d <= m.
Proof.
  intros Ht Ha Hb Hc Hd.
  assert (H : - m <= bernstein t (- a) (- b) (- c) (- d)) by (apply bernstein_lower; lra).
  assert (E : bernstein t (- a) (- b) (- c) (- d) == - bernstein t a b c d)
    by (unfold bernstein; ring).
  lra.
Qed.

Theorem bezierPoint_hull t p0 p1 p2 p3 lo hi :
  0 <= t <= 1 ->
  (x lo <= x p0 <= x hi /\ x lo <= x p1 <= x hi /\ x lo <= x p2 <= x hi /\ x lo <= x p3 <= x hi) ->
  (y lo <= y p0 <= y hi /\ y lo <= y p1 <= y hi /\ y lo <= y p2 <= y hi /\ y lo <= y p3 <= y hi) ->
  x lo <= x (bezierPoint t p0 p1 p2 p3) <= x hi /\
  y lo <= y (bezierPoint t p0 p1 p2 p3) <= y hi.
Proof.
  intros Ht Hx Hy.
  assert (Ex : x (bezierPoint t p0 p1 p2 p3) == bernstein t (x p0) (x p1) (x p2) (x p3))
    by (unfold bezierPoint, bernstein; cbn [x]; ring).
  assert (Ey : y (bezierPoint t p0 p1 p2 p3) == bernstein t (y p0) (y p1) (y p2) (y p3))
    by (unfold bezierPoint, bernstein; cbn [y]; ring).
  rewrite Ex, Ey.
  repeat split; first [apply bernstein_lower | apply bernstein_upper]; tauto.
Qed.

Theorem flight_hull_any_path p t f started lo hi :
  duration p = 600 ->
  startTime f = Some started -> ~ started == 0 -> started <= t ->
  (x lo <= x (startPoint p) <= x hi /\ x lo <= x (controlPoint1 p) <= x hi /\
   x lo <= x (controlPoint2 p) <= x hi /\ x lo <= x (endPoint p) <= x hi) ->
  (y lo <= y (startPoint p) <= y hi /\ y lo <= y (controlPoint1 p) <= y hi /\
   y lo <= y (controlPoint2 p) <= y hi /\ y lo <= y (endPoint p) <= y hi) ->
  x lo <= x (position (animate_frame p t f)) <= x hi /\
  y lo <= y (position (animate_frame p t f)) <= y hi.
Proof.
  intros Hd Hs Hne Hle Hx Hy.
  assert (Hun : startTime_unset (startTime f) = false).
  { rewrite Hs. cbn. destruct (Qeq_bool started 0) eqn:E; [|reflexivity].
    apply Qeq_bool_iff in E. tauto. }
  rewrite animate_frame_position, Hun, Hd, Hs. cbn [default from_option Datatypes.id].
  apply bezierPoint_hull; [|exact Hx|exact Hy].
  apply Qmin_unit. lra.
Qed.

End Flight.

(** *** Listeners and patches *)

Section Rest.

(** Whatever a submission does next, the error timer that [#timeout] held
    is no longer pending after it. *)
Theorem handleSubmit_clears_error_timer w i :
  timeout (pf w) = Some i -> (i < next_timer w)%positive ->
  forall t, t ∈ timers (exec handleSubmit w) -> timer_id t <> i.
Proof.
  intros Hi Hfresh.
  assert (Hold : forall t, t ∈ remove_if_set (timeout (pf w)) (timers w) -> timer_id t <> i).
  { intros t H. apply elem_of_remove_if_set in H as [H _]. congruence. }
  destruct (button_disabled (pf w)) eqn:Hd.
  { unfold exec. rewrite handleSubmit_disabled by exact Hd. exact Hold. }
  destruct (form (pf w)) as [f|] eqn:Hf.
  2:{ unfold exec. rewrite handleSubmit_missing_form by assumption. exact Hold. }
  destruct (validate (pf w)) as [[[|] m]|] eqn:Hv.
  2:{ destruct (addToCartTextError (pf w)) as [e|] eqn:He.
      - rewrite (handleSubmit_rejected_shown w f m e Hd Hf Hv He).
        intros t H. cbn in H.
        apply elem_of_app in H as [H|H]; [now apply Hold|].
        apply elem_of_cons in H as [->|H]; [cbn; lia|].
        apply elem_of_cons in H as [->|H]; [cbn; lia|].
        now apply not_elem_of_nil in H.
      - rewrite (handleSubmit_rejected_silent w f m Hd Hf Hv He).
        intros t H. cbn in H.
        apply elem_of_app in H as [H|H]; [now apply Hold|].
        apply elem_of_cons in H as [->|H]; [cbn; lia|].
        now apply not_elem_of_nil in H. }
  all: unfold exec; rewrite (handleSubmit_accepted w f Hd Hf) by (intros m'; congruence).
  all: exact Hold.
Qed.

(** [#morphOrUpdateElement] leaves the new element in the document when the
    current element or the reference exists, and nothing otherwise; calling
    it again changes nothing. *)
Theorem morphOrUpdateElement_result currentElement newElement insertReference :
  morphOrUpdateElement currentElement newElement insertReference =
    (if insertReference || bool_decide (is_Some currentElement) then newElement else None) /\
  morphOrUpdateElement (morphOrUpdateElement currentElement newElement insertReference)
                       newElement insertReference =
    morphOrUpdateElement currentElement newElement insertReference.
Proof.
  destruct currentElement, newElement, insertReference; cbn; split; reflexivity.
Qed.

Lemma reconnect_after_abort targets : forall l,
  aborted l = true -> foldl (fun l target => connectedCallback target l) l targets = l.
Proof.
  induction targets as [|target rest IH]; intros l Hl; cbn; [reflexivity|].
  unfold connectedCallback at 2. rewrite Hl. now apply IH.
Qed.

(** Once disconnected, a product form hears no variant and no cart event,
    however often it is connected again (its one controller stays
    aborted); clicks, submissions, answers and timers go on as before. *)
Theorem disconnected_form_is_deaf l targets w a :
  let l' := foldl (fun l target => connectedCallback target l) (abort l) targets in
  deliver l' w a =
    match a with
    | VariantUpdated _ | VariantSelected | CartUpdated _ _ => w
    | _ => step w a
    end.
Proof.
  intros l'. subst l'. rewrite reconnect_after_abort by reflexivity.
  destruct a; reflexivity.
Qed.

(** A connected product form hears the cart events, and the variant events
    when it stands in a section, a dialog or a product card. *)
Theorem connected_form_listens target w a :
  deliver (connectedCallback target constructed) w a =
    match a with
    | VariantUpdated _ | VariantSelected => if target then step w a else w
    | _ => step w a
    end.
Proof. destruct a, target; reflexivity. Qed.

End Rest.

(** ** The properties of the rest of the code *)

Section SubmissionProperties.

(** Without a [form] element [handleSubmit] throws ['Product form element
    missing']: nothing is sent or shown, but the pending error timer is
    already cleared. *)
Theorem missing_form_throws w :
  button_disabled (pf w) = false -> form (pf w) = None ->
  exists w',
    handleSubmit w = (Throw "Product form element missing", w') /\
    inflight w' = inflight w /\ pf w' = pf w /\
    timers w' = remove_if_set (timeout (pf w)) (timers w).
Proof.
  intros Hd Hf. eexists. split; [now apply handleSubmit_missing_form|].
  destruct w. repeat split.
Qed.

Lemma missing_form_throws_witness :
  let w := set_pf (ProductForm "product-form-1" ∅ None None None None EmptyString None None
                               [("id", "42")] None) example_page in
  exists w', handleSubmit w = (Throw "Product form element missing", w') /\
             inflight w' = inflight w.
Proof.
  cbv zeta.
  destruct (missing_form_throws
              (set_pf (ProductForm "product-form-1" ∅ None None None None EmptyString None None
                                   [("id", "42")] None) example_page)
              eq_refl eq_refl) as (w' & Hthrow & Hreq & _).
  exists w'. split; [exact Hthrow | exact Hreq].
Defined.

(** A submission the quantity widget does not reject sends exactly one POST,
    whose body is the form's fields followed by the [sections] entries; it
    leaves the component as it is (the button stays enabled while the
    request is in flight), dispatches nothing and schedules no timer. *)
Theorem accepted_submission_posts_once w f :
  button_disabled (pf w) = false -> form (pf w) = Some f ->
  (forall maximum, validate (pf w) <> Some (Validation false maximum)) ->
  let w' := exec handleSubmit w in
  inflight w' =
    <[next_request w :=
        CartAdd (controls (pf w) ++ sections_entries (cartItemsComponents w)) (form_id f)]>
      (inflight w) /\
  next_request w' = S (next_request w) /\
  pf w' = pf w /\
  dispatched w' = dispatched w /\
  timers w' = remove_if_set (timeout (pf w)) (timers w).
Proof.
  intros Hd Hf Hv w'. subst w'. unfold exec.
  rewrite (handleSubmit_accepted w f Hd Hf Hv), append_sections_from.
  destruct w. repeat split.
Qed.

Lemma accepted_submission_posts_once_witness :
  inflight (exec handleSubmit (accepting example_page)) =
    {[ 0%nat := CartAdd [("id", "42"); ("quantity", "5"); ("sections", "cart-drawer")]
                        (Some "form-1") ]} /\
  button_disabled (pf (exec handleSubmit (accepting example_page))) = false.
Proof.
  destruct (accepted_submission_posts_once (accepting example_page)
              (FormElement (Some "form-1") true) eq_refl eq_refl)
    as (Hreq & _ & Hpf & _).
  - intros maximum. discriminate.
  - split; [rewrite Hreq; reflexivity | rewrite Hpf; reflexivity].
Defined.

Lemma submit_while_disabled_keeps_error_witness :
  let w := exec handleSubmit example_page in
  error_visible (pf w) = true /\
  addToCartTextError (pf (elapse 60000 (exec handleSubmit w))) = addToCartTextError (pf w).
Proof.
  cbv zeta. split; [vm_compute; reflexivity|].
  assert (Hd : button_disabled (pf (exec handleSubmit example_page)) = true)
    by (vm_compute; reflexivity).
  assert (Hts : timers (exec handleSubmit example_page) =
                [Timer 1 10000 HideError; Timer 2 1000 EnableButton])
    by (vm_compute; reflexivity).
  assert (Hto : timeout (pf (exec handleSubmit example_page)) = Some 1%positive)
    by (vm_compute; reflexivity).
  refine (proj1 (submit_while_disabled_keeps_error (exec handleSubmit example_page)
                   Hd _ 60000)).
  intros t Ht Hcb. rewrite Hto. rewrite Hts in Ht.
  apply elem_of_cons in Ht as [->|Ht]; [reflexivity|].
  apply elem_of_cons in Ht as [->|Ht]; [discriminate Hcb|].
  exfalso. exact (not_elem_of_nil t Ht).
Defined.

Lemma append_sections_entries_witness :
  first_value "id" (append_sections [Some "cart-drawer"; None; Some "cart-page"] []
                                    [("id", "42")]) = Some "42" /\
  last (append_sections [Some "cart-drawer"; None; Some "cart-page"] [] [("id", "42")]) =
    Some ("sections", "cart-drawer,cart-page").
Proof.
  destruct (append_sections_entries [Some "cart-drawer"; None; Some "cart-page"]
                                    [("id", "42")]) as (_ & _ & Hfirst & Hlast).
  split.
  - rewrite (Hfirst "id"); [reflexivity | discriminate].
  - rewrite Hlast; [reflexivity | discriminate].
Defined.

Lemma handleSubmit_clears_error_timer_witness :
  let w := exec handleSubmit example_page in
  Timer 1 10000 HideError ∈ timers w /\
  Timer 1 10000 HideError ∉ timers (exec handleSubmit w).
Proof.
  cbv zeta.
  assert (Hts : timers (exec handleSubmit example_page) =
                [Timer 1 10000 HideError; Timer 2 1000 EnableButton])
    by (vm_compute; reflexivity).
  assert (Hto : timeout (pf (exec handleSubmit example_page)) = Some 1%positive)
    by (vm_compute; reflexivity).
  assert (Hnext : (1 < next_timer (exec handleSubmit example_page))%positive)
    by (vm_compute; reflexivity).
  split; [rewrite Hts; apply elem_of_cons; now left|].
  intros H.
  apply (handleSubmit_clears_error_timer (exec handleSubmit example_page) 1
           Hto Hnext _ H).
  reflexivity.
Defined.

End SubmissionProperties.

Section AnswerProperties.

(** An answer without a truthy [status], for a form that carries the variant
    id and whose quantity and configured default are absent or plain integer
    numerals: exactly one [CartAddEvent] is dispatched, under the variant
    id, with the nominal quantity and the sections of the answer; the error
    element does not show; with a button the live region announces the
    added text and a timer of 5000 ms will clear it; the cart is fetched
    again when the variant input is not empty. *)
Theorem cart_add_success_signal formData formId response w ident :
  JS.truthy_value (status response) = false ->
  truthy_string (first_value "id" formData) = Some ident ->
  plain_integer (first_value "quantity" formData) = true ->
  plain_integer (dataset (pf w) !! "quantityDefault") = true ->
  let w' := exec (cart_add_settled formData formId (Json response)) w in
  dispatched w' =
    dispatched w ++
      [CartAddEvent ident
         (AddDetail false "product-form-component" (nominal_quantity formData (pf w))
                    (dataset (pf w) !! "productId") (response_sections response))] /\
  console w' = console w /\
  error_visible (pf w') = false /\
  match addToCartButtonContainer (pf w) with
  | Some c =>
      liveRegion (pf w') = default (translations_added w) (truthy_string (addedText c)) /\
      timers w' = timers w ++ [Timer (next_timer w) (now w + 5000) ClearLiveRegion]
  | None => liveRegion (pf w') = liveRegion (pf w) /\ timers w' = timers w
  end /\
  inflight w' =
    match truthy_string (first_value "id" (controls (pf w))) with
    | Some _ => <[next_request w := CartGet]> (inflight w)
    | None => inflight w
    end.
Proof.
  intros Hs Hid _ _. exact (cart_add_success_effects formData formId response w ident Hs Hid).
Qed.

Lemma cart_add_success_signal_witness :
  dispatched (exec (cart_add_settled [("id", "42"); ("quantity", "1")] (Some "form-1")
                                     (Json added_response))
                   (accepting example_page)) =
    [CartAddEvent "42"
       (AddDetail false "product-form-component" (JS.Num 1) (Some "77")
                  (Some [("cart-drawer", "<div></div>")]))].
Proof.
  exact (proj1 (cart_add_success_signal [("id", "42"); ("quantity", "1")] (Some "form-1")
                  added_response (accepting example_page) "42" eq_refl eq_refl
                  eq_refl eq_refl)).
Defined.

Lemma cart_add_success_without_id_witness :
  console (exec (cart_add_settled [("quantity", "1")] (Some "form-1") (Json added_response))
                (accepting example_page)) = ["Form ID is required"] /\
  dispatched (exec (cart_add_settled [("quantity", "1")] (Some "form-1") (Json added_response))
                   (accepting example_page)) = [].
Proof.
  destruct (cart_add_success_without_id [("quantity", "1")] (Some "form-1") added_response
              (accepting example_page) eq_refl eq_refl) as (Hc & Hd & _).
  split; [exact Hc | exact Hd].
Defined.

Lemma cart_add_error_signal_witness :
  dispatched (exec (cart_add_settled [("id", "42"); ("quantity", "0")] None (Json sold_out))
                   (accepting example_page)) =
    [CartErrorEvent EmptyString "Sold out" EmptyString EmptyString;
     CartAddEvent "product-form-1"
       (AddDetail true "product-form-component" (JS.Num 1) (Some "77") None)].
Proof.
  exact (proj1 (cart_add_error_signal [("id", "42"); ("quantity", "0")] None sold_out
                  (accepting example_page) (ErrorElement true false ["icon"; " "])
                  eq_refl eq_refl eq_refl eq_refl)).
Defined.

Lemma cart_add_error_never_success_witness :
  pending ClearLiveRegion (exec (cart_add_settled [("id", "42")] None (Json sold_out))
                                (accepting example_page)) = [] /\
  inflight (exec (cart_add_settled [("id", "42")] None (Json sold_out))
                 (accepting example_page)) = ∅.
Proof.
  destruct (cart_add_error_never_success [("id", "42")] None sold_out (accepting example_page)
              eq_refl) as (Hreq & Hpending & _).
  split; [exact Hpending | exact Hreq].
Defined.

Lemma own_add_events_ignored_witness :
  onCartUpdate (Some "42") (Some "product-form-component") example_page =
    (Normal tt, example_page).
Proof.
  assert (Hd : dispatched (exec (cart_add_settled [("id", "42"); ("quantity", "1")]
                                   (Some "form-1") (Json added_response))
                                (accepting example_page)) =
               [CartAddEvent "42"
                  (AddDetail false "product-form-component" (JS.Num 1) (Some "77")
                             (Some [("cart-drawer", "<div></div>")]))])
    by (vm_compute; reflexivity).
  destruct (own_add_events_ignored [("id", "42"); ("quantity", "1")] (Some "form-1")
              (Json added_response) (accepting example_page) "42"
              (AddDetail false "product-form-component" (JS.Num 1) (Some "77")
                         (Some [("cart-drawer", "<div></div>")]))) as [H|H].
  - rewrite Hd. apply elem_of_cons. now left.
  - exfalso. exact (not_elem_of_nil _ H).
  - exact (H example_page).
Defined.

Lemma onCartUpdate_foreign_witness :
  inflight (exec (onCartUpdate (Some "cart-drawer") None) example_page) = {[ 0%nat := CartGet ]}.
Proof.
  rewrite (onCartUpdate_foreign (Some "cart-drawer") None example_page);
    [vm_compute; reflexivity | discriminate | discriminate].
Defined.

Lemma onVariantUpdate_other_product_witness :
  onVariantUpdate (VariantUpdate (Some (Variant 43 true None)) None (Some "78") None)
                  example_page = (Normal tt, example_page).
Proof.
  apply onVariantUpdate_other_product; [reflexivity | discriminate].
Defined.

Lemma onVariantUpdate_form_witness :
  let e := VariantUpdate None None (Some "77") None in
  first_value "id" (controls (pf (exec (onVariantUpdate e) example_page))) = Some EmptyString /\
  inflight (exec (onVariantUpdate e) example_page) = ∅.
Proof.
  cbv zeta.
  destruct (onVariantUpdate_form (VariantUpdate None None (Some "77") None) example_page
              (or_intror eq_refl)) as (Hctl & _ & _ & Hreq).
  split.
  - rewrite Hctl. reflexivity.
  - rewrite Hreq; [reflexivity|]. left. eexists. reflexivity.
Defined.

End AnswerProperties.

Section ClickProperties.

(** A click appends a [fly-to-cart] element exactly when it is valid,
    outside a quick-add modal, the cart icon exists, the data flag is
    ['true'] and the button holds a variant image; the element carries that
    image. *)
Theorem click_sends_image in_quick_add_modal w :
  flights (exec (handleClick in_quick_add_modal) w) =
    flights w ++ option_list (flight_of_click in_quick_add_modal w).
Proof. apply handleClick_flights. Qed.

(** The error element gets one more child node only while it has fewer than
    three; with two children or more a later message takes the place of the
    earlier one, with fewer than two both messages stay. *)
Theorem show_error_nodes text text' e :
  List.length (childNodes (show_error text e)) =
    (if (3 <=? List.length (childNodes e))%nat
     then List.length (childNodes e)
     else S (List.length (childNodes e))) /\
  ((2 <= List.length (childNodes e))%nat ->
   show_error text' (show_error text e) = show_error text' e) /\
  ((List.length (childNodes e) < 2)%nat ->
   childNodes (show_error text' (show_error text e)) = childNodes e ++ [text; text']).
Proof.
  split; [apply show_error_count|].
  split; [apply show_error_reuse | apply show_error_piles_up].
Qed.

Lemma show_error_nodes_witness :
  show_error "Only 3 left" (show_error "Sold out" (ErrorElement true false ["icon"; " "])) =
    ErrorElement false false ["icon"; " "; "Only 3 left"] /\
  childNodes (show_error "Only 3 left" (show_error "Sold out" (ErrorElement true false []))) =
    ["Sold out"; "Only 3 left"].
Proof.
  destruct (show_error_nodes "Sold out" "Only 3 left" (ErrorElement true false ["icon"; " "]))
    as (_ & Hreuse & _).
  destruct (show_error_nodes "Sold out" "Only 3 left" (ErrorElement true false []))
    as (_ & _ & Hpile).
  split.
  - rewrite Hreuse; [reflexivity | cbn; lia].
  - rewrite Hpile; [reflexivity | cbn; lia].
Defined.

Lemma variant_media_flies_witness :
  let e := VariantUpdate (Some (Variant 43 true (Some "mug.png?v=1"))) None (Some "77") None in
  flights (exec (handleClick false) (exec (onVariantUpdate e) (accepting example_page))) =
    ["mug.png?v=1&width=100"].
Proof.
  cbv zeta.
  destruct (variant_media_flies
              (VariantUpdate (Some (Variant 43 true (Some "mug.png?v=1"))) None (Some "77") None)
              (accepting example_page) example_button
              (Variant 43 true (Some "mug.png?v=1")) "mug.png?v=1"
              (or_intror eq_refl) eq_refl eq_refl eq_refl) as [_ Hfly].
  exact (Hfly eq_refl eq_refl eq_refl).
Defined.

End ClickProperties.

Section TimeProperties.

Lemma rejected_submission_timeline_witness :
  let w := exec handleSubmit example_page in
  (button_disabled (pf (elapse 999 w)) = true /\
   button_disabled (pf (elapse 1000 w)) = false) /\
  (error_visible (pf (elapse 9999 w)) = true /\
   error_visible (pf (elapse 10000 w)) = false) /\
  liveRegion (pf (elapse 5000 w)) = "You can only add 3 of this item".
Proof.
  cbv zeta.
  pose proof (rejected_submission_timeline example_page (FormElement (Some "form-1") true) 3
                (ErrorElement true false ["icon"; " "]) example_button
                eq_refl eq_refl eq_refl eq_refl eq_refl eq_refl) as H.
  split; [split|split; [split|]].
  - exact (proj1 (H 999 ltac:(lia))).
  - exact (proj1 (H 1000 ltac:(lia))).
  - exact (proj1 (proj2 (H 9999 ltac:(lia)))).
  - exact (proj1 (proj2 (H 10000 ltac:(lia)))).
  - exact (proj1 (proj2 (proj2 (H 5000 ltac:(lia))))).
Defined.

Lemma added_announcement_timeline_witness :
  let w := exec (cart_add_settled [("id", "42"); ("quantity", "1")] (Some "form-1")
                                  (Json added_response)) (accepting example_page) in
  liveRegion (pf (elapse 4999 w)) = "Added" /\
  liveRegion (pf (elapse 5000 w)) = EmptyString.
Proof.
  cbv zeta.
  pose proof (added_announcement_timeline [("id", "42"); ("quantity", "1")] (Some "form-1")
                added_response (accepting example_page) "42" example_button
                eq_refl eq_refl eq_refl eq_refl) as H.
  split.
  - exact (H 4999 ltac:(lia)).
  - exact (H 5000 ltac:(lia)).
Defined.

Lemma disconnected_button_keeps_class_witness :
  let w := exec (handleClick false) (accepting example_page) in
  has_added w = Some true /\
  has_added (elapse 60000 (exec disconnectedCallback w)) = Some true.
Proof.
  cbv zeta.
  assert (Hadd : has_added (exec (handleClick false) (accepting example_page)) = Some true)
    by (vm_compute; reflexivity).
  assert (Hts : timers (exec (handleClick false) (accepting example_page)) =
                [Timer 1 2000 AnimationEnd]) by (vm_compute; reflexivity).
  assert (Hc : exists c, addToCartButtonContainer
                           (pf (exec (handleClick false) (accepting example_page))) = Some c /\
                         animationTimeout c = Some 1%positive)
    by (eexists; split; vm_compute; reflexivity).
  split; [exact Hadd|].
  rewrite <- Hadd.
  refine (proj1 (disconnected_button_keeps_class
                   (exec (handleClick false) (accepting example_page)) _ 60000)).
  intros t Ht _. rewrite Hts in Ht.
  apply elem_of_cons in Ht as [->|Ht]; [|exfalso; exact (not_elem_of_nil t Ht)].
  destruct Hc as (c & Hc & Hid). exists c. split; [exact Hc | left; exact Hid].
Defined.

(** From a page without pending timers, after any sequence of clicks,
    submissions, answers, variant and cart events and pauses, identifiers
    are fresh and every pending timer of [animateAddToCart] is held by
    [#animationTimeout] or [#cleanupTimeout]. *)
Theorem history_keeps_timers_tracked l w :
  quiet w -> timers_fresh (run w l) /\ animation_timers_tracked (run w l).
Proof.
  intros Hq. apply well_formed_tracked, run_well_formed. now apply quiet_well_formed.
Qed.

Lemma history_keeps_timers_tracked_witness :
  timers_fresh (run (accepting example_page) [Click false; Elapse 2005; Submit; Click false]).
Proof.
  exact (proj1 (history_keeps_timers_tracked [Click false; Elapse 2005; Submit; Click false]
                  (accepting example_page) eq_refl)).
Defined.

Lemma click_after_any_history_witness :
  let w := run (accepting example_page) [Click false; Elapse 1500] in
  has_added (elapse 2009 (exec (handleClick false) w)) = Some true /\
  has_added (elapse 2010 (exec (handleClick false) w)) = Some false.
Proof.
  cbv zeta.
  assert (Hv : valid_click (pf (run (accepting example_page) [Click false; Elapse 1500])) = true)
    by (vm_compute; reflexivity).
  assert (Hc : is_Some (addToCartButtonContainer
                          (pf (run (accepting example_page) [Click false; Elapse 1500]))))
    by (eexists; vm_compute; reflexivity).
  pose proof (click_after_any_history [Click false; Elapse 1500] false (accepting example_page)
                eq_refl Hv Hc) as H.
  split.
  - exact (H 2009 ltac:(lia)).
  - exact (H 2010 ltac:(lia)).
Defined.

End TimeProperties.

Section FlightProperties.

Import Bezier.
Local Open Scope Q_scope.

(** The first frame, and any frame while [startTime] is still [null] or [0],
    draws the element at the start point with scale 1, asks for another
    frame and takes its time stamp as the start. *)
Theorem first_frame_at_start own source destination t f :
  let p := animate_path own source destination in
  startTime_unset (startTime f) = true ->
  let f' := animate_frame p t f in
  (x (position f') == x (startPoint p) /\ y (position f') == y (startPoint p)) /\
  scale f' == 1 /\
  frame_requested f' = true /\
  opacity f' = opacity f /\
  startTime f' = Some t.
Proof. intros p Hs. now apply first_frame_any_path. Qed.

Lemma first_frame_at_start_witness :
  let p := animate_path (Rect 0 0 40 40) (Rect 100 500 200 50) (Rect 900 10 30 30) in
  frame_requested (animate_frame p 0 (animate_start p)) = true /\
  startTime_unset (startTime (animate_frame p 0 (animate_start p))) = true.
Proof.
  cbv zeta.
  destruct (first_frame_at_start (Rect 0 0 40 40) (Rect 100 500 200 50) (Rect 900 10 30 30)
              0 (animate_start (animate_path (Rect 0 0 40 40) (Rect 100 500 200 50)
                                             (Rect 900 10 30 30)))
              eq_refl) as (_ & _ & Hreq & _ & Hstart).
  split; [exact Hreq|]. rewrite Hstart. reflexivity.
Defined.

(** Once started, the scale of a frame lies between 1/2 and 1; a frame at
    600 ms or later has scale 1/2 and opacity 0 and asks for no further
    frame; an earlier frame keeps the opacity and asks for the next. *)
Theorem later_frames_shrink own source destination t f started :
  let p := animate_path own source destination in
  startTime f = Some started -> ~ started == 0 -> started <= t ->
  let f' := animate_frame p t f in
  (1 # 2 <= scale f' <= 1) /\
  (600 <= t - started ->
   scale f' == 1 # 2 /\ opacity f' = 0 /\ frame_requested f' = false) /\
  (t - started < 600 -> opacity f' = opacity f /\ frame_requested f' = true).
Proof. intros p Hs Hne Hle. now apply later_frames_any_path. Qed.

Lemma later_frames_shrink_witness :
  let p := animate_path (Rect 0 0 40 40) (Rect 100 500 200 50) (Rect 900 10 30 30) in
  opacity (animate_frame p 1700 (Flight (Some 1000) (startPoint p) 1 1 true)) = 0.
Proof.
  cbv zeta.
  destruct (later_frames_shrink (Rect 0 0 40 40) (Rect 100 500 200 50) (Rect 900 10 30 30)
              1700 (Flight (Some 1000) (startPoint (animate_path (Rect 0 0 40 40)
                                                     (Rect 100 500 200 50)
                                                     (Rect 900 10 30 30))) 1 1 true)
              1000 eq_refl) as (_ & Hend & _).
  - discriminate.
  - discriminate.
  - apply Hend. discriminate.
Defined.

(** For [t] between 0 and 1 the point of the curve lies in every box that
    holds the four points. *)
Theorem bezierPoint_in_hull t p0 p1 p2 p3 lo hi :
  0 <= t <= 1 ->
  (x lo <= x p0 <= x hi /\ x lo <= x p1 <= x hi /\ x lo <= x p2 <= x hi /\ x lo <= x p3 <= x hi) ->
  (y lo <= y p0 <= y hi /\ y lo <= y p1 <= y hi /\ y lo <= y p2 <= y hi /\ y lo <= y p3 <= y hi) ->
  x lo <= x (bezierPoint t p0 p1 p2 p3) <= x hi /\
  y lo <= y (bezierPoint t p0 p1 p2 p3) <= y hi.
Proof. apply bezierPoint_hull. Qed.

Lemma bezierPoint_in_hull_witness :
  0 <= x (bezierPoint (1 # 3) (Point 0 300) (Point 0 100) (Point 500 0) (Point 800 100)) <= 800.
Proof.
  refine (proj1 (bezierPoint_in_hull (1 # 3) (Point 0 300) (Point 0 100) (Point 500 0)
                   (Point 800 100) (Point 0 0) (Point 800 300) _ _ _)).
  - split; discriminate.
  - cbn. repeat split; discriminate.
  - cbn. repeat split; discriminate.
Defined.

(** Over the rationals, every frame of a started flight draws the element
    inside every box that holds the start point, the end point and the two
    control points. *)
Theorem flight_stays_in_hull own source destination t f started lo hi :
  let p := animate_path own source destination in
  startTime f = Some started -> ~ started == 0 -> started <= t ->
  (x lo <= x (startPoint p) <= x hi /\ x lo <= x (controlPoint1 p) <= x hi /\
   x lo <= x (controlPoint2 p) <= x hi /\ x lo <= x (endPoint p) <= x hi) ->
  (y lo <= y (startPoint p) <= y hi /\ y lo <= y (controlPoint1 p) <= y hi /\
   y lo <= y (controlPoint2 p) <= y hi /\ y lo <= y (endPoint p) <= y hi) ->
  x lo <= x (position (animate_frame p t f)) <= x hi /\
  y lo <= y (position (animate_frame p t f)) <= y hi.
Proof. intros p Hs Hne Hle Hx Hy. now apply (flight_hull_any_path p t f started). Qed.

Lemma flight_stays_in_hull_witness :
  let p := animate_path (Rect 0 0 40 40) (Rect 100 500 200 50) (Rect 900 10 30 30) in
  180 <= x (position (animate_frame p 1300 (Flight (Some 1000) (startPoint p) 1 1 true))) <= 895.
Proof.
  cbv zeta.
  refine (proj1 (flight_stays_in_hull (Rect 0 0 40 40) (Rect 100 500 200 50)
                   (Rect 900 10 30 30) 1300
                   (Flight (Some 1000) (Point 0 0) 1 1 true) 1000
                   (Point 180 (-100)) (Point 895 505) eq_refl _ _ _ _)).
  - discriminate.
  - discriminate.
  - cbn. repeat split; discriminate.
  - cbn. repeat split; discriminate.
Defined.

End FlightProperties.

Section CartFetchProperties.

(** A cart fetch that succeeds pushes the quantity of the current variant
    into the quantity widget, when it has [setCartQuantity], and hides the
    quantity label exactly when that quantity is [0]; it logs nothing. *)
Theorem cart_fetch_updates_widget l value w :
  Forall (fun i => is_Some (variant_id i)) l ->
  first_value "id" (controls (pf w)) = Some value ->
  let w' := exec (fetchAndUpdateCartQuantity_settled (Json (Cart (Some l)))) w in
  let cartQty := quantity_in_cart value l in
  quantitySelector (pf w') =
    (fun q => if setCartQuantity q
              then QuantitySelector (canAddToCart q) true cartQty
              else q) <$> quantitySelector (pf w) /\
  quantityLabelCartCount (pf w') = (fun _ => cartQty =? 0) <$> quantityLabelCartCount (pf w) /\
  console w' = console w.
Proof.
  intros Hall Hv w' cartQty. subst w' cartQty.
  unfold exec, fetchAndUpdateCartQuantity_settled, try_catch. cbn.
  unfold bind, get. cbn. rewrite Hv, (find_item_found value l w Hall). cbn.
  unfold quantity_in_cart, updateQuantityLabel, modify_pf, modify, bind, ret. cbn.
  destruct (quantitySelector (pf w)) as [q|] eqn:Hq;
    [destruct (setCartQuantity q) eqn:E|]; cbn;
    destruct (List.find _ l); cbn; rewrite ?Hq, ?E; repeat split.
Qed.

Lemma cart_fetch_updates_widget_witness :
  let w := exec (fetchAndUpdateCartQuantity_settled
                   (Json (Cart (Some [CartItem (Some 41) 2; CartItem (Some 42) 7]))))
                example_page in
  cartQuantity <$> quantitySelector (pf w) = Some 7 /\
  quantityLabelCartCount (pf w) = Some false.
Proof.
  cbv zeta.
  destruct (cart_fetch_updates_widget [CartItem (Some 41) 2; CartItem (Some 42) 7] "42"
              example_page) as (Hq & Hl & _).
  - repeat constructor; eexists; reflexivity.
  - reflexivity.
  - split; [rewrite Hq; reflexivity | rewrite Hl; reflexivity].
Defined.

(** A cart fetch whose body throws leaves the component as it was and
    writes one line to the console. *)
Theorem cart_fetch_failure_is_silent r w error w1 :
  cart_quantity_body r w = (Throw error, w1) ->
  fetchAndUpdateCartQuantity_settled r w =
    (Normal 0, set_console (console w ++ ["Failed to fetch cart quantity: " +:+ error]) w).
Proof.
  intros Hbody.
  assert (Hw1 : w1 = w).
  { destruct r as [| |[[l|]]]; cbn in Hbody; try (injection Hbody as _ <-; reflexivity).
    unfold bind, get in Hbody. cbn in Hbody.
    destruct (first_value "id" (controls (pf w))) as [value|]; cbn in Hbody;
      [|injection Hbody as _ <-; reflexivity].
    pose proof (find_item_state value l w) as Hst.
    destruct (find_item value l w) as [[item|e] w2]; cbn in *; subst w2.
    - unfold updateQuantityLabel, modify_pf, modify, bind, ret in Hbody. cbn in Hbody.
      discriminate.
    - injection Hbody as _ <-. reflexivity. }
  subst w1. unfold fetchAndUpdateCartQuantity_settled, try_catch. rewrite Hbody.
  reflexivity.
Qed.

Lemma cart_fetch_failure_is_silent_witness :
  fetchAndUpdateCartQuantity_settled
    (Json (Cart (Some [CartItem None 2; CartItem (Some 42) 7]))) example_page =
    (Normal 0,
     set_console ["Failed to fetch cart quantity: TypeError: Cannot read properties of undefined (reading 'toString')"]
                 example_page).
Proof.
  exact (cart_fetch_failure_is_silent
           (Json (Cart (Some [CartItem None 2; CartItem (Some 42) 7]))) example_page
           "TypeError: Cannot read properties of undefined (reading 'toString')"
           example_page eq_refl).
Defined.

End CartFetchProperties.
